(** * pygama: ORCA packet headers, the vector-of-vectors store and the
      data streamer's chunked read loop.

    A shallow embedding of

      - [src/pygama/raw/orca/orca_packet.py]   (module [OrcaPacket]),
      - [src/pygama/lgdo/vectorofvectors.py]   (module [VoV]),
      - [pygama/raw/data_streamer.py]          (module [Streamer]),

    and the properties of these that the specification states. *)

From Stdlib Require Import ZArith NArith Lia Bool String.
From stdpp Require Import base option list strings gmap.

Local Open Scope Z_scope.

(** ** Python-level outcomes shared by the three modules *)

(** The exceptions the embedded code can raise. *)
Inductive exn : Type :=
  | ValueError (msg : string)
  | TypeError
  | IndexError
  | KeyError
  | AttributeError
  | NameError
  | StopIteration.

(** What a call on a mutable object can do: return a value and leave the
    object in a new state, raise and leave the object in the state reached at
    the [raise], or still be running when the fuel given to its loops ends. *)
Inductive outcome (S X : Type) : Type :=
  | Returned (x : X) (s : S)
  | Raised (e : exn) (s : S)
  | OutOfFuel.
Arguments Returned {S X} x s.
Arguments Raised {S X} e s.
Arguments OutOfFuel {S X}.

(** The state a call leaves the object in, when the call ends. *)
Definition final_state {S X : Type} (o : outcome S X) : option S :=
  match o with
  | Returned _ s => Some s
  | Raised _ s => Some s
  | OutOfFuel => None
  end.

(** [l[i]] on a Python list: a negative index counts from the end, and
    [None] stands for the [IndexError] of an index outside the list. *)
Definition list_getitem {T : Type} (l : list T) (i : Z) : option T :=
  if 0 <=? i then l !! Z.to_nat i
  else if - Z.of_nat (length l) <=? i then l !! Z.to_nat (Z.of_nat (length l) + i)
  else None.

(** * ORCA packets *)
Module OrcaPacket.

(** An ORCA packet is a one-dimensional array of [numpy.uint32] words. *)
Definition uint32 (w : Z) : Prop := 0 <= w < 2 ^ 32.

(** [packet[0]]; [None] stands for the [IndexError] of an empty array. *)
Definition first_word (packet : list Z) : option Z := packet !! 0%nat.

(** [is_short]: [bool(packet[0] >> 31)]. *)
Definition is_short (packet : list Z) : option bool :=
  w ← first_word packet; Some (negb (Z.shiftr w 31 =? 0)).

(** [get_n_words]. *)
Definition get_n_words (packet : list Z) : option Z :=
  short ← is_short packet;
  if short : bool then Some 1
  else w ← first_word packet; Some (Z.land w 0x3FFFF).

(** [get_data_id]. *)
Definition get_data_id (packet : list Z) (shift : bool) : option Z :=
  short ← is_short packet;
  w ← first_word packet;
  if short : bool then
    if shift then Some (Z.shiftr (Z.land w 0xFC000000) 26)
    else Some (Z.land w 0xFC000000)
  else
    if shift then Some (Z.shiftr (Z.land w 0xFFFC0000) 18)
    else Some (Z.land w 0xFFFC0000).

(** The field of [width] bits that starts at bit [lo] of [w], moved down to
    bit 0. *)
Definition bit_field (w lo width : Z) : Z := Z.land (Z.shiftr w lo) (Z.ones width).

End OrcaPacket.

(** * The vector of vectors *)
Module VoV.
Local Open Scope nat_scope.

(** Modelled from the spec: the class [Array] of [pygama.lgdo.array] is not
    among the sources. It is taken as what the code here reads of it: a
    NumPy array [nda] carried with the name of its element type. *)
Record Array (T : Type) : Type := mkArray { nda : list T; adtype : string }.
Arguments mkArray {T} nda adtype.
Arguments nda {T} a.
Arguments adtype {T} a.

Section Store.
Context {A : Type}.
(** The element NumPy pads a grown array with (the dtype's zero). *)
Variable zero : A.
(** What the memory of a fresh, unfilled allocation happens to hold. *)
Variable uninitialised : nat -> A.

(** A NumPy array handed to [set_vector]: zero-dimensional, one-dimensional
    or with at least two axes ([d0], [d1] and further [dims]). *)
Inductive ndarray : Type :=
  | Nd0 (x : A)
  | Nd1 (values : list A)
  | NdN (d0 d1 : nat) (dims : list nat) (values : list A).

(** [nda.shape] *)
Definition shape (a : ndarray) : list nat :=
  match a with
  | Nd0 _ => []
  | Nd1 values => [length values]
  | NdN d0 d1 dims _ => d0 :: d1 :: dims
  end.

(** [len(nda)]: the first axis; a [TypeError] for a zero-dimensional array. *)
Definition len (a : ndarray) : option nat := head (shape a).

(** The elements of the array in storage order. *)
Definition ravel (a : ndarray) : list A :=
  match a with
  | Nd0 x => [x]
  | Nd1 values => values
  | NdN _ _ _ values => values
  end.

(** The object's attributes. [cumulative_length] holds [uint32] values.
    [index] is the iteration cursor; it does not exist before the first
    [__iter__]. The [attrs] dictionary is not read by any operation
    embedded here and is left out. *)
Record VectorOfVectors : Type := mkVoV {
  flattened_data : Array A;
  cumulative_length : Array N;
  dtype : string;
  index : option nat
}.

Definition flat (self : VectorOfVectors) : list A := nda (flattened_data self).
Definition cum (self : VectorOfVectors) : list N := nda (cumulative_length self).

Definition with_flat (self : VectorOfVectors) (l : list A) : VectorOfVectors :=
  mkVoV (mkArray l (adtype (flattened_data self)))
        (cumulative_length self) (dtype self) (index self).

Definition with_cum (self : VectorOfVectors) (l : list N) : VectorOfVectors :=
  mkVoV (flattened_data self)
        (mkArray l (adtype (cumulative_length self))) (dtype self) (index self).

Definition with_index (self : VectorOfVectors) (i : option nat) : VectorOfVectors :=
  mkVoV (flattened_data self) (cumulative_length self) (dtype self) i.

(** *** NumPy primitives on one-dimensional arrays *)

(** [a.resize(n, refcheck=True)] in place: the first [n] elements are kept
    and the array is padded with zeros up to length [n]. The store owns its
    buffers (no other array refers to them), so the reference check of
    [resize] passes. [ndarray_resize_checked] below is the same method
    with the check, for a buffer that other arrays may refer to. *)
Definition ndarray_resize (a : list A) (n : nat) : list A :=
  take n a ++ replicate (n - length a) zero.

(** [a[start:stop]] for non-negative bounds: both are clipped to the
    length, and the slice is empty when [stop <= start]. *)
Definition getslice (a : list A) (start stop : N) : list A :=
  take (N.to_nat stop - N.to_nat start) (drop (N.to_nat start) a).

(** [a[start:stop] = values]: the values are copied when there are as many
    as the slice has places, a single value is repeated over the slice, and
    anything else is NumPy's broadcast [ValueError] ([None]). *)
Definition setslice (a : list A) (start stop : N) (values : list A) : option (list A) :=
  let lo := Nat.min (N.to_nat start) (length a) in
  let hi := Nat.max lo (Nat.min (N.to_nat stop) (length a)) in
  if decide (length values = hi - lo) then Some (take lo a ++ values ++ drop hi a)
  else match values with
       | [v] => Some (take lo a ++ replicate (hi - lo) v ++ drop hi a)
       | _ => None
       end.

(** *** [set_vector] *)

(** The loop [while end >= len(flattened_data.nda): resize(2*len)]. It
    returns the buffer it leaves, or [None] when [fuel] iterations did not
    end it. *)
Fixpoint grow (fuel : nat) (end_ : N) (a : list A) : option (list A) :=
  if (N.of_nat (length a) <=? end_)%N then
    match fuel with
    | O => None
    | S fuel' => grow fuel' end_ (ndarray_resize a (2 * length a))
    end
  else Some a.

(** The number of doublings the loop performs before it stops. *)
Fixpoint doublings (fuel : nat) (end_ : N) (a : list A) : option nat :=
  if (N.of_nat (length a) <=? end_)%N then
    match fuel with
    | O => None
    | S fuel' => S <$> doublings fuel' end_ (ndarray_resize a (2 * length a))
    end
  else Some O.

(** [set_vector(i_vec, nda)]. [start] is a [uint32] read from
    [cumulative_length]; [end] is computed by NumPy in 64 bits, and it is
    the store into the [uint32] array [cumulative_length] that wraps. *)
Definition set_vector (fuel : nat) (i_vec : Z) (a : ndarray) (self : VectorOfVectors)
  : outcome VectorOfVectors unit :=
  if ((i_vec <? 0) || (i_vec >? Z.of_nat (length (cum self)) - 1))%Z then
    Raised (ValueError "bad i_vec") self
  else if negb (length (shape a) =? 1) then
    Raised (ValueError "nda had bad shape") self
  else
    match (if (i_vec =? 0)%Z then Some 0%N else cum self !! Z.to_nat (i_vec - 1)) with
    | None => Raised IndexError self
    | Some start =>
      match len a with
      | None => Raised TypeError self
      | Some n =>
        let end_ := (start + N.of_nat n)%N in
        match grow fuel end_ (flat self) with
        | None => OutOfFuel
        | Some grown =>
          match setslice grown start end_ (ravel a) with
          | None => Raised (ValueError "could not broadcast") (with_flat self grown)
          | Some written =>
            Returned tt
              (with_cum (with_flat self written)
                        (<[Z.to_nat i_vec := (end_ mod 2 ^ 32)%N]> (cum self)))
          end
        end
      end
    end.

(** [a.resize(n, refcheck=True)] with its check. [referenced] says that
    another array refers to the buffer, as a row handed out by
    [__next__] or [__getitem__] does while the caller holds it (a row is a
    slice of [flattened_data.nda], a view of it), or that the buffer is
    itself a view. NumPy then refuses to change the size, with a
    [ValueError], and leaves the array as it is; a resize to the size the
    array has is not checked. *)
Definition ndarray_resize_checked (referenced : bool) (a : list A) (n : nat)
  : exn + list A :=
  if n =? length a then inr (ndarray_resize a n)
  else if referenced then
    inl (ValueError "cannot resize an array that references or is referenced by another array")
  else inr (ndarray_resize a n).

(** The doubling loop with the checked [resize]: the buffer it leaves,
    or the exception of a refused [resize] with the buffer as it was then. *)
Fixpoint grow_checked (referenced : bool) (fuel : nat) (end_ : N) (a : list A)
  : option (exn * list A + list A) :=
  if (N.of_nat (length a) <=? end_)%N then
    match fuel with
    | O => None
    | S fuel' =>
      match ndarray_resize_checked referenced a (2 * length a) with
      | inl e => Some (inl (e, a))
      | inr a' => grow_checked referenced fuel' end_ a'
      end
    end
  else Some (inr a).

(** [set_vector(i_vec, nda)] on a store whose flattened buffer other
    arrays may refer to ([referenced]). With [referenced = false] it is
    [set_vector]. *)
Definition set_vector_checked (referenced : bool) (fuel : nat) (i_vec : Z)
    (a : ndarray) (self : VectorOfVectors) : outcome VectorOfVectors unit :=
  if ((i_vec <? 0) || (i_vec >? Z.of_nat (length (cum self)) - 1))%Z then
    Raised (ValueError "bad i_vec") self
  else if negb (length (shape a) =? 1) then
    Raised (ValueError "nda had bad shape") self
  else
    match (if (i_vec =? 0)%Z then Some 0%N else cum self !! Z.to_nat (i_vec - 1)) with
    | None => Raised IndexError self
    | Some start =>
      match len a with
      | None => Raised TypeError self
      | Some n =>
        let end_ := (start + N.of_nat n)%N in
        match grow_checked referenced fuel end_ (flat self) with
        | None => OutOfFuel
        | Some (inl (e, kept)) => Raised e (with_flat self kept)
        | Some (inr grown) =>
          match setslice grown start end_ (ravel a) with
          | None => Raised (ValueError "could not broadcast") (with_flat self grown)
          | Some written =>
            Returned tt
              (with_cum (with_flat self written)
                        (<[Z.to_nat i_vec := (end_ mod 2 ^ 32)%N]> (cum self)))
          end
        end
      end
    end.

(** Writing the rows [rows] at the indices [i_vec], [i_vec + 1], ... in
    order: [for r in rows: self.set_vector(i_vec, r); i_vec += 1]. *)
Fixpoint set_vectors (fuel : nat) (i_vec : Z) (rows : list (list A))
    (self : VectorOfVectors) : outcome VectorOfVectors unit :=
  match rows with
  | [] => Returned tt self
  | r :: rows' =>
    match set_vector fuel i_vec (Nd1 r) self with
    | Returned _ self' => set_vectors fuel (i_vec + 1)%Z rows' self'
    | other => other
    end
  end.

(** *** Iteration *)

(** [__iter__] *)
Definition iter (self : VectorOfVectors) : VectorOfVectors :=
  with_index self (Some O).

(** The [start] and [end] that [__next__] reads for the index [i]; [None]
    stands for the [IndexError] of an index outside [cumulative_length]. *)
Definition row_bounds (self : VectorOfVectors) (i : nat) : option (N * N) :=
  if i =? 0 then end_ ← cum self !! 0; Some (0%N, end_)
  else start ← cum self !! (i - 1); end_ ← cum self !! i; Some (start, end_).

(** The body of the [try] in [__next__]:
    [flattened_data.nda[start:end]] for the index [i]. *)
Definition stored_row (self : VectorOfVectors) (i : nat) : option (list A) :=
  (fun '(start, end_) => getslice (flat self) start end_) <$> row_bounds self i.

(** The rows stored at the [n] indices from [i] on (an empty row stands in
    for an index outside [cumulative_length]). *)
Definition stored_rows (self : VectorOfVectors) (i n : nat) : list (list A) :=
  (fun j => default [] (stored_row self j)) <$> seq i n.

(** Row [k] starts at [off]: at the offset that [cumulative_length] holds
    for the row before it, or at 0 for the first row. *)
Definition starts_at (self : VectorOfVectors) (k off : nat) : Prop :=
  if decide (k = 0) then off = 0 else cum self !! (k - 1) = Some (N.of_nat off).

(** [__next__]: the [IndexError] is turned into [StopIteration]. *)
Definition next (self : VectorOfVectors) : outcome VectorOfVectors (list A) :=
  match index self with
  | None => Raised AttributeError self
  | Some i =>
    match stored_row self i with
    | None => Raised StopIteration self
    | Some result => Returned result (with_index self (Some (S i)))
    end
  end.

(** Running an iterator to its end, as [list(...)] and [for] do: the rows
    [__next__] returns until it raises [StopIteration]. *)
Fixpoint exhaust (fuel : nat) (self : VectorOfVectors)
  : outcome VectorOfVectors (list (list A)) :=
  match fuel with
  | O => OutOfFuel
  | S fuel' =>
    match next self with
    | Returned row self' =>
      match exhaust fuel' self' with
      | Returned rows self'' => Returned (row :: rows) self''
      | other => other
      end
    | Raised StopIteration self' => Returned [] self'
    | Raised e self' => Raised e self'
    | OutOfFuel => OutOfFuel
    end
  end.

(** [list(self)] *)
Definition to_list (fuel : nat) (self : VectorOfVectors)
  : outcome VectorOfVectors (list (list A)) :=
  exhaust fuel (iter self).

(** [__len__] *)
Definition vov_len (self : VectorOfVectors) : nat := length (cum self).

(** [__getitem__(index)]: [list(self)[index]]. *)
Definition getitem (fuel : nat) (idx : Z) (self : VectorOfVectors)
  : outcome VectorOfVectors (list A) :=
  match to_list fuel self with
  | Returned rows self' =>
    match list_getitem rows idx with
    | Some row => Returned row self'
    | None => Raised IndexError self'
    end
  | Raised e self' => Raised e self'
  | OutOfFuel => OutOfFuel
  end.

(** The [start] that [set_vector] computes for the row [i_vec]. *)
Definition row_start (self : VectorOfVectors) (i_vec : Z) : option N :=
  if (i_vec =? 0)%Z then Some 0%N else cum self !! Z.to_nat (i_vec - 1).

(** *** [resize] and [__init__] *)

(** Modelled from the spec: [Array.resize] of [pygama.lgdo.array] is not
    among the sources. The spec has [resize(newRowCount)] truncate or grow
    the offsets to the new row count; new places are taken as zeros. *)
Definition Array_resize (a : Array N) (new_size : nat) : Array N :=
  mkArray (take new_size (nda a) ++ replicate (new_size - length (nda a)) 0%N)
          (adtype a).

(** [resize(new_size)] *)
Definition resize (new_size : nat) (self : VectorOfVectors) : VectorOfVectors :=
  mkVoV (flattened_data self) (Array_resize (cumulative_length self) new_size)
        (dtype self) (index self).

(** Modelled from the spec: the constructor of [pygama.lgdo.array.Array] is
    not among the sources. [Array(shape=(n,), dtype=dt, fill_val=0)] is
    taken as [n] zeros, and [Array(shape=(n,), dtype=dt)] as [n] elements
    of unspecified content; the spec has the store created with a capacity
    guess and its offsets sized to the row capacity. *)
Definition Array_new {T : Type} (n : nat) (dt : string) (fill_val : option T)
    (junk : nat -> T) : Array T :=
  mkArray (match fill_val with
           | Some v => replicate n v
           | None => junk <$> seq 0 n
           end) dt.

(** [__init__(flattened_data, cumulative_length, shape_guess, dtype)], up to
    the [attrs] bookkeeping. [shape_guess] is a NumPy shape of two axes, so
    [np.prod(shape_guess)] is the product of the two; subscripting or
    sizing an array by a [shape_guess] left at [None] is a [TypeError]. *)
Definition init (flattened_data : option (Array A))
    (cumulative_length : option (Array N)) (shape_guess : option (nat * nat))
    (dtype : option string) : exn + VectorOfVectors :=
  let cl :=
    match cumulative_length with
    | None =>
      match shape_guess with
      | None => inl TypeError
      | Some (n0, _) => inr (Array_new n0 "uint32" (Some 0%N) (fun _ => 0%N))
      end
    | Some cl => inr cl
    end in
  match cl with
  | inl e => inl e
  | inr cl =>
    match flattened_data with
    | None =>
      let length := (fun '(n0, n1) => n0 * n1) <$> shape_guess in
      match dtype with
      | None => inl (ValueError "flattened_data and dtype cannot both be None!")
      | Some dt =>
        match length with
        | None => inl TypeError
        | Some length => inr (mkVoV (Array_new length dt None uninitialised) cl dt None)
        end
      end
    | Some fd =>
      inr (mkVoV fd cl (match dtype with None => adtype fd | Some dt => dt end) None)
    end
  end.

End Store.

Arguments Nd0 {A} x.
Arguments Nd1 {A} values.
Arguments NdN {A} d0 d1 dims values.
Arguments mkVoV {A} _ _ _ _.

(** *** Two small stores of [int64] elements *)

(** Room for four rows and an initial flattened capacity of two. *)
Definition small_store : VectorOfVectors (A:=Z) :=
  mkVoV (mkArray [0; 0]%Z "int64") (mkArray [0; 0; 0; 0]%N "uint32") "int64" None.


(** Room for two rows and a flattened buffer of no capacity. *)
Definition store_of_none : VectorOfVectors (A:=Z) :=
  mkVoV (mkArray [] "int64") (mkArray [0; 0]%N "uint32") "int64" None.

(** Room for two rows and a flattened capacity of four. *)
Definition store_of_four : VectorOfVectors (A:=Z) :=
  mkVoV (mkArray [0; 0; 0; 0]%Z "int64") (mkArray [0; 0]%N "uint32") "int64" None.
End VoV.

(** * The data streamer *)

(** [data_streamer.py] is a draft that does not parse as it stands: several
    [if] and [for] headers lack their colon, [read_packet] returns [true], the
    keyword of [format('name'=dec_key)] is quoted, and [read_chunk] spells
    [rb.lgod] and [hasattr(..., __len__)]. It is read here with the colons
    supplied, [True], [format(name=dec_key)], [rb.lgdo] and
    [hasattr(rb.lgdo, '__len__')], and with [for rb_list in
    self.rb_lib.items()] going over the lists of the library. Everything else
    is as written.

    The file imports [RawBufferLibrary] alone. [read_chunk], [wildcard_setup],
    [build_default_rb_lib] and [open_stream] below read the names [RawBuffer]
    and [RawBufferList] as imported with it, and the lines 180-184 as just
    said: they are the methods as their author meant them. The definitions
    whose names end in [_written] take the same lines as they stand, with only
    the colons and the keyword of [format] put right: there the key of a
    library entry is taken for a buffer, and [RawBuffer] is not a name of the
    module. *)
Module Streamer.

(** A decoder object; [class_name] is [type(decoder).__name__]. *)
Record Decoder : Type := mkDecoder { class_name : string; serial : nat }.

(** What a buffer's [out_name] attribute can hold. *)
Inductive pyobj : Type :=
  | PyStr (s : string)
  | PyDecoder (d : Decoder).

(** [RawBuffer]: the attributes the streamer reads and writes. [lgdo_len]
    is [len(rb.lgdo)], and [None] when the buffer's [lgdo] has no
    [__len__] (it has none before [make_lgdos]). *)
Record RawBuffer : Type := mkRawBuffer {
  lgdo_len : option nat;
  out_stream : string;
  out_name : pyobj;
  loc : Z
}.

(** What [read_chunk] hands back: a list of buffers alone, or the pair of
    that list and a byte count. *)
Inductive returned : Type :=
  | JustList (chunk_list : list RawBuffer)
  | ListAndBytes (chunk_list : list RawBuffer) (n_bytes : Z).

(** *** Strings *)

(** [s.endswith(suffix)] *)
Definition endswith (s suffix : string) : bool :=
  String.prefix (String.rev suffix) (String.rev s).

(** [s.removesuffix(suffix)] *)
Definition removesuffix (s suffix : string) : string :=
  if endswith s suffix
  then String.substring 0 (String.length s - String.length suffix) s
  else s.

(** [template.format(name=value)] for a template whose only replacement
    field is [{name}]: every occurrence is replaced by [value]. [skip] is the
    number of characters of a field still to be dropped. A field of another
    name or a lone brace, on which Python raises, and the escapes [{{] and
    [}}] are outside this definition; the parameter [str_format] of the
    [_written] definitions stands for the method in full. *)
Fixpoint format_from (skip : nat) (template value : string) : string :=
  match template with
  | EmptyString => EmptyString
  | String c rest =>
    match skip with
    | S skip' => format_from skip' rest value
    | O =>
      if String.prefix "{name}" template
      then (value ++ format_from 5 rest value)%string
      else String c (format_from 0 rest value)
    end
  end.

Definition format (template value : string) : string := format_from 0 template value.

Section Engine.
(** The state a derived class adds (file handle, position, ...). *)
Context {Src : Type}.

Record DataStreamer : Type := mkStreamer {
  rb_lib : option (gmap string (list RawBuffer));
  chunk_mode : option string;
  n_bytes_read : Z;
  any_full : bool;
  source : Src
}.

(** The methods a derived class defines, and [RawBufferList.make_lgdos],
    whose module is not among the sources. *)
Variable read_packet : DataStreamer -> bool * DataStreamer.
Variable get_decoder_list : DataStreamer -> list Decoder.
Variable make_lgdos : Decoder -> Z -> list RawBuffer -> list RawBuffer.

(** [__init__] *)
Definition new_streamer (src : Src) : DataStreamer :=
  mkStreamer None None 0 false src.

(** [self.chunk_mode = m] and [self.rb_lib = lib] *)
Definition set_chunk_mode (m : option string) (self : DataStreamer) : DataStreamer :=
  mkStreamer (rb_lib self) m (n_bytes_read self) (any_full self) (source self).

Definition set_rb_lib (lib : option (gmap string (list RawBuffer)))
    (self : DataStreamer) : DataStreamer :=
  mkStreamer lib (chunk_mode self) (n_bytes_read self) (any_full self) (source self).

(** *** [read_chunk] *)

(** The packet loop of [read_chunk]; [None] when [fuel] calls of
    [read_packet] did not end it. It returns [n_packets]. *)
Fixpoint read_loop (fuel : nat) (read_one_packet : bool) (rp_max n_packets : Z)
    (self : DataStreamer) : option (Z * DataStreamer) :=
  match fuel with
  | O => None
  | S fuel' =>
    let '(still_has_data, self) := read_packet self in
    if negb still_has_data then Some (n_packets, self)
    else
      let n_packets := n_packets + 1 in
      if read_one_packet || (n_packets >? rp_max) then Some (n_packets, self)
      else if any_full self then Some (n_packets, self)
      else read_loop fuel' read_one_packet rp_max n_packets self
  end.

(** The test that puts a buffer on the returned list. *)
Definition listed (only_full : bool) (rb : RawBuffer) : bool :=
  if negb only_full && (loc rb >? 0) then true
  else match lgdo_len rb with
       | None => loc rb >? 0
       | Some n => loc rb =? Z.of_nat n
       end.

(** The mode [read_chunk] works in. *)
Definition effective_mode (chunk_mode_override : option string)
    (self : DataStreamer) : option string :=
  match chunk_mode_override with
  | None => chunk_mode self
  | Some m => Some m
  end.

(** [read_chunk(chunk_mode_override, rp_max)]. The loops over the library
    visit every buffer of every list. *)
Definition read_chunk (fuel : nat) (chunk_mode_override : option string) (rp_max : Z)
    (self : DataStreamer) : outcome DataStreamer returned :=
  let chunk_mode := effective_mode chunk_mode_override self in
  let read_one_packet := bool_decide (chunk_mode = Some "single_packet"%string) in
  let only_full := bool_decide (chunk_mode = Some "only_full"%string) in
  match read_loop fuel read_one_packet rp_max 0 self with
  | None => OutOfFuel
  | Some (_, self) =>
    match rb_lib self with
    | None => Raised AttributeError self
    | Some lib =>
      let list_of_rbs :=
        filter (fun rb => listed only_full rb = true)
               (concat (snd <$> map_to_list lib)) in
      Returned (JustList list_of_rbs) self
    end
  end.

(** *** The packet loop seen from outside *)

(** The engine after [k] calls of [read_packet]. *)
Definition after_calls (k : nat) (self : DataStreamer) : DataStreamer :=
  Nat.iter k (fun s => snd (read_packet s)) self.

(** What the [k]-th call of [read_packet] returns ([k] counted from 1). *)
Definition still_has_data (k : nat) (self : DataStreamer) : bool :=
  fst (read_packet (after_calls (k - 1) self)).

(** The number of packets read by the first [k] calls when only the last
    of them may have reported the end of the data. *)
Definition packets_read (k : nat) (self : DataStreamer) : Z :=
  if still_has_data k self then Z.of_nat k else Z.of_nat k - 1.

(** The loop is left by design right after the [k]-th call: that call
    reported the end of the data, or it read a packet and the mode is
    [single_packet] or the engine's [any_full] flag is up. *)
Definition design_stop (mode : option string) (k : nat) (self : DataStreamer) : bool :=
  negb (still_has_data k self)
  || bool_decide (mode = Some "single_packet"%string)
  || any_full (after_calls k self).

(** The four conditions of the spec, read right after the [k]-th call for
    the override [P] and the cap [rp_max]. *)
Definition claimed_stop (P : option string) (rp_max : Z) (k : nat)
    (self : DataStreamer) : bool :=
  negb (still_has_data k self)
  || (bool_decide (P = Some "single_packet"%string) && (k =? 1)%nat)
  || (Z.of_nat k =? rp_max)
  || (bool_decide (P = Some "any_full"%string) && any_full (after_calls k self)).

(** *** [open_stream] *)

(** [build_default_rb_lib(out_stream)]. The method returns the library only
    from inside the branch for an empty decoder list; with decoders it
    builds the library and ends without a [return], which is [None]. *)
Definition build_default_rb_lib (self : DataStreamer) (out_stream : string)
  : option (gmap string (list RawBuffer)) :=
  let decoders := get_decoder_list self in
  if (length decoders =? 0)%nat then Some ∅ else None.

(** The body of [if dec_name not in rb_lib] for one decoder: [inr None] is
    the [continue], [inr (Some lib)] goes on to the rest of the loop body. *)
Definition wildcard_setup (rb_lib : gmap string (list RawBuffer)) (decoder : Decoder)
  : exn + option (gmap string (list RawBuffer)) :=
  let dec_name := class_name decoder in
  match rb_lib !! dec_name with
  | Some _ => inr (Some rb_lib)
  | None =>
    match rb_lib !! "*"%string with
    | None => inr None
    | Some wildcard =>
      let dec_key := dec_name in
      (* the stripped string is computed and dropped: there is no assignment *)
      let _ := if endswith dec_key "Decoder" then removesuffix dec_key "Decoder"
               else dec_key in
      match wildcard !! 0%nat with
      | None => inl IndexError
      | Some template =>
        match out_name template with
        | PyDecoder _ => inl AttributeError
        | PyStr name_template =>
          let out_name := format name_template dec_key in
          let out_stream := format (out_stream template) dec_key in
          let rb := mkRawBuffer None out_stream (PyDecoder decoder) 0 in
          inr (Some (<[dec_name := [rb]]> rb_lib))
        end
      end
    end
  end.

(** The loop over the decoders: the library and [dec_names] it leaves, and
    the exception that ended it, if any. *)
Fixpoint setup_buffers (buffer_size : Z) (decoders : list Decoder)
    (rb_lib : gmap string (list RawBuffer)) (dec_names : list string)
  : option exn * gmap string (list RawBuffer) * list string :=
  match decoders with
  | [] => (None, rb_lib, dec_names)
  | decoder :: decoders' =>
    let dec_name := class_name decoder in
    match wildcard_setup rb_lib decoder with
    | inl e => (Some e, rb_lib, dec_names)
    | inr None => setup_buffers buffer_size decoders' rb_lib dec_names
    | inr (Some rb_lib) =>
      let dec_names := dec_names ++ [dec_name] in
      match rb_lib !! dec_name with
      | None => (Some KeyError, rb_lib, dec_names)
      | Some rbs =>
        setup_buffers buffer_size decoders'
          (<[dec_name := make_lgdos decoder buffer_size rbs]> rb_lib) dec_names
      end
    end
  end.

(** [open_stream(stream_name, rb_lib, buffer_size, chunk_mode, out_stream)];
    the warnings it prints are not part of the state. *)
Definition open_stream (stream_name : string)
    (rb_lib : option (gmap string (list RawBuffer))) (buffer_size : Z)
    (chunk_mode : string) (out_stream : string) (self : DataStreamer)
  : outcome DataStreamer unit :=
  let self := set_chunk_mode (Some chunk_mode) self in
  let rb_lib :=
    match rb_lib with
    | None => build_default_rb_lib self out_stream
    | Some lib => Some lib
    end in
  let self := set_rb_lib rb_lib self in
  let decoders := get_decoder_list self in
  match rb_lib, decoders with
  | None, [] => Raised AttributeError self
  | None, _ :: _ => Raised TypeError self
  | Some lib, _ =>
    let '(failure, lib, dec_names) := setup_buffers buffer_size decoders lib [] in
    let self := set_rb_lib (Some lib) self in
    match failure with
    | Some e => Raised e self
    | None => Returned tt self
    end
  end.

(** *** The methods with their lines as they stand *)

(** Python's [template.format(name=value)]: the formatted string, or the
    exception it raises (a [KeyError] for a field of another name, a
    [ValueError] for a lone brace). *)
Variable str_format : string -> string -> exn + string.


(** [build_default_rb_lib] as it stands: the empty library for a stream
    without decoders, and the [NameError] of [RawBuffer(...)] at the first
    decoder otherwise. *)
Definition build_default_rb_lib_written (self : DataStreamer) (out_stream : string)
  : exn + gmap string (list RawBuffer) :=
  let decoders := get_decoder_list self in
  if (length decoders =? 0)%nat then inr ∅ else inl NameError.

(** The body of [if dec_name not in rb_lib] as it stands: after the two
    calls of [format], [RawBuffer(...)] is a [NameError]. *)
Definition wildcard_setup_written (rb_lib : gmap string (list RawBuffer))
    (decoder : Decoder) : exn + option (gmap string (list RawBuffer)) :=
  let dec_name := class_name decoder in
  match rb_lib !! dec_name with
  | Some _ => inr (Some rb_lib)
  | None =>
    match rb_lib !! "*"%string with
    | None => inr None
    | Some wildcard =>
      let dec_key := dec_name in
      match wildcard !! 0%nat with
      | None => inl IndexError
      | Some template =>
        match out_name template with
        | PyDecoder _ => inl AttributeError
        | PyStr name_template =>
          match str_format name_template dec_key with
          | inl e => inl e
          | inr _ =>
            match str_format (out_stream template) dec_key with
            | inl e => inl e
            | inr _ => inl NameError
            end
          end
        end
      end
    end
  end.

(** The loop over the decoders with that body. *)
Fixpoint setup_buffers_written (buffer_size : Z) (decoders : list Decoder)
    (rb_lib : gmap string (list RawBuffer)) (dec_names : list string)
  : option exn * gmap string (list RawBuffer) * list string :=
  match decoders with
  | [] => (None, rb_lib, dec_names)
  | decoder :: decoders' =>
    let dec_name := class_name decoder in
    match wildcard_setup_written rb_lib decoder with
    | inl e => (Some e, rb_lib, dec_names)
    | inr None => setup_buffers_written buffer_size decoders' rb_lib dec_names
    | inr (Some rb_lib) =>
      let dec_names := dec_names ++ [dec_name] in
      match rb_lib !! dec_name with
      | None => (Some KeyError, rb_lib, dec_names)
      | Some rbs =>
        setup_buffers_written buffer_size decoders'
          (<[dec_name := make_lgdos decoder buffer_size rbs]> rb_lib) dec_names
      end
    end
  end.

(** [open_stream] as it stands. An exception of [build_default_rb_lib]
    leaves [self.rb_lib] as it was: the assignment is not reached. *)
Definition open_stream_written (stream_name : string)
    (rb_lib : option (gmap string (list RawBuffer))) (buffer_size : Z)
    (chunk_mode : string) (out_stream : string) (self : DataStreamer)
  : outcome DataStreamer unit :=
  let self := set_chunk_mode (Some chunk_mode) self in
  let built :=
    match rb_lib with
    | None => build_default_rb_lib_written self out_stream
    | Some lib => inr lib
    end in
  match built with
  | inl e => Raised e self
  | inr lib =>
    let self := set_rb_lib (Some lib) self in
    let decoders := get_decoder_list self in
    let '(failure, lib, dec_names) :=
      setup_buffers_written buffer_size decoders lib [] in
    let self := set_rb_lib (Some lib) self in
    match failure with
    | Some e => Raised e self
    | None => Returned tt self
    end
  end.

End Engine.

Arguments DataStreamer Src : clear implicits.

(** *** A concrete engine *)

(** A [read_packet] over a source that never ends: every call reads a
    packet of 4 bytes, after which some buffer is near its capacity. The
    source state counts the calls. *)
Definition filling_reader (self : DataStreamer nat) : bool * DataStreamer nat :=
  (true, mkStreamer (rb_lib self) (chunk_mode self) (n_bytes_read self + 4) true
                    (S (source self))).

(** A [read_packet] over a source of [total] packets of 4 bytes that never
    fills a buffer. *)
Definition tape_reader (total : nat) (self : DataStreamer nat)
  : bool * DataStreamer nat :=
  if (source self <? total)%nat
  then (true, mkStreamer (rb_lib self) (chunk_mode self) (n_bytes_read self + 4)
                         (any_full self) (S (source self)))
  else (false, self).

(** [make_lgdos] as the repository's test of it has it: every buffer of
    the list gets an [lgdo] of length [size]. *)
Definition sized_lgdos (decoder : Decoder) (size : Z) (rbs : list RawBuffer)
  : list RawBuffer :=
  (fun rb => mkRawBuffer (Some (Z.to_nat size)) (out_stream rb) (out_name rb) (loc rb))
    <$> rbs.

Definition sis_decoder : Decoder := mkDecoder "ORSIS3302Decoder" 0.

(** A library with only the wildcard entry, as in the repository's test
    configuration. *)
Definition wildcard_lib : gmap string (list RawBuffer) :=
  {[ "*"%string := [mkRawBuffer None "{name}_others.lh5" (PyStr "{name}") 0] ]}.

(** An opened engine with one buffer that holds three rows. *)
Definition engine0 : DataStreamer nat :=
  mkStreamer
    (Some {[ "ORSIS3302Decoder"%string
             := [mkRawBuffer (Some 8%nat) "out.lh5" (PyStr "sis") 3] ]})
    (Some "any_full"%string) 0 false 0%nat.
End Streamer.

(** * Properties of the packet header functions *)
Module OrcaPacketProps.
Import OrcaPacket.

(** *** Bits of the two header masks *)


Lemma mask_short_bits i :
  0 <= i -> Z.testbit 0xFC000000 i = (26 <=? i) && (i <? 32).
Proof.
  intros Hi. change 0xFC000000 with (Z.shiftl (Z.ones 6) 26).
  rewrite Z.shiftl_spec by lia.
  destruct (Z.leb_spec 26 i) as [Hge | Hlt]; simpl.
  - rewrite Z.testbit_ones by lia.
    destruct (Z.ltb_spec i 32), (Z.ltb_spec (i - 26) 6), (Z.leb_spec 0 (i - 26)); simpl; lia.
  - apply Z.testbit_neg_r. lia.
Qed.

Lemma mask_long_bits i :
  0 <= i -> Z.testbit 0xFFFC0000 i = (18 <=? i) && (i <? 32).
Proof.
  intros Hi. change 0xFFFC0000 with (Z.shiftl (Z.ones 14) 18).
  rewrite Z.shiftl_spec by lia.
  destruct (Z.leb_spec 18 i) as [Hge | Hlt]; simpl.
  - rewrite Z.testbit_ones by lia.
    destruct (Z.ltb_spec i 32), (Z.ltb_spec (i - 18) 14), (Z.leb_spec 0 (i - 18)); simpl; lia.
  - apply Z.testbit_neg_r. lia.
Qed.

Lemma bit_field_bits w lo width i :
  0 <= lo -> 0 <= width -> 0 <= i ->
  Z.testbit (bit_field w lo width) i = (i <? width) && Z.testbit w (lo + i).
Proof.
  intros Hlo Hw Hi. unfold bit_field.
  rewrite Z.land_spec, Z.shiftr_spec, Z.testbit_ones by lia.
  replace (i + lo) with (lo + i) by lia.
  destruct (Z.leb_spec 0 i); [| lia]. simpl.
  apply andb_comm.
Qed.

Lemma bit_field_range w lo width :
  0 <= width -> 0 <= bit_field w lo width < 2 ^ width.
Proof.
  intros Hw. unfold bit_field. rewrite Z.land_ones by lia.
  apply Z.mod_pos_bound. apply Z.pow_pos_nonneg; lia.
Qed.

(** Masking with [0xFC000000] and shifting by 26 reads bits 26..31. *)
Lemma short_id_is_field w :
  Z.shiftr (Z.land w 0xFC000000) 26 = bit_field w 26 6.
Proof.
  apply Z.bits_inj'. intros i Hi.
  rewrite bit_field_bits by lia.
  rewrite Z.shiftr_spec, Z.land_spec, mask_short_bits by lia.
  destruct (Z.leb_spec 26 (i + 26)); [| lia].
  replace (26 + i) with (i + 26) by lia.
  destruct (Z.ltb_spec (i + 26) 32), (Z.ltb_spec i 6); simpl; try lia;
    rewrite ?andb_true_r, ?andb_false_r; reflexivity.
Qed.

(** Masking with [0xFFFC0000] and shifting by 18 reads bits 18..31. *)
Lemma long_id_is_field w :
  Z.shiftr (Z.land w 0xFFFC0000) 18 = bit_field w 18 14.
Proof.
  apply Z.bits_inj'. intros i Hi.
  rewrite bit_field_bits by lia.
  rewrite Z.shiftr_spec, Z.land_spec, mask_long_bits by lia.
  destruct (Z.leb_spec 18 (i + 18)); [| lia].
  replace (18 + i) with (i + 18) by lia.
  destruct (Z.ltb_spec (i + 18) 32), (Z.ltb_spec i 14); simpl; try lia;
    rewrite ?andb_true_r, ?andb_false_r; reflexivity.
Qed.

Lemma shiftr31_testbit w :
  Z.testbit w 31 = true -> (Z.shiftr w 31 =? 0) = false.
Proof.
  intros Hb. apply Z.eqb_neq. intros Hz.
  assert (Z.testbit (Z.shiftr w 31) 0 = true) as Hs
    by (rewrite Z.shiftr_spec by lia; exact Hb).
  rewrite Hz in Hs. rewrite Z.bits_0 in Hs. discriminate.
Qed.

Lemma uint32_shiftr31 w :
  uint32 w -> (Z.shiftr w 31 =? 0) = negb (Z.testbit w 31).
Proof.
  intros [Hlo Hhi].
  destruct (Z.testbit w 31) eqn:Hb; cbn [negb].
  - by apply shiftr31_testbit.
  - apply Z.eqb_eq. apply Z.bits_inj'. intros i Hi.
    rewrite Z.shiftr_spec, Z.bits_0 by lia.
    destruct (Z.eq_dec i 0) as [-> | Hne]; [exact Hb |].
    destruct (Z.eq_dec w 0) as [-> | Hw]; [apply Z.bits_0 |].
    apply Z.bits_above_log2; [lia |].
    assert (Z.log2 w < 32) by (apply Z.log2_lt_pow2; lia). lia.
Qed.

Lemma is_short_cons w payload :
  is_short (w :: payload) = Some (negb (Z.shiftr w 31 =? 0)).
Proof. reflexivity. Qed.

(** [is_short] is the top bit of a [uint32] first word. *)
Lemma is_short_top_bit w payload :
  uint32 w -> is_short (w :: payload) = Some (Z.testbit w 31).
Proof.
  intros Hw. rewrite is_short_cons, uint32_shiftr31 by exact Hw.
  by rewrite negb_involutive.
Qed.

(** C5: when bit 31 of the first word is set, whatever words follow it,
    [is_short] is true, [get_n_words] is 1 and [get_data_id] with
    [shift=True] is the 6-bit field held in bits 26..31 of the first word. *)
Theorem short_packet_header (w : Z) (payload : list Z) :
  Z.testbit w 31 = true ->
  is_short (w :: payload) = Some true /\
  get_n_words (w :: payload) = Some 1 /\
  exists v, get_data_id (w :: payload) true = Some v /\
            v = bit_field w 26 6 /\
            0 <= v < 64 /\
            forall i, 0 <= i -> Z.testbit v i = (i <? 6) && Z.testbit w (26 + i).
Proof.
  intros Hb.
  assert (is_short (w :: payload) = Some true) as Hs.
  { rewrite is_short_cons, shiftr31_testbit by exact Hb. reflexivity. }
  split; [exact Hs |]. split.
  - unfold get_n_words. rewrite Hs. reflexivity.
  - exists (bit_field w 26 6). split; [| split; [reflexivity | split]].
    + unfold get_data_id. rewrite Hs. cbn [mbind option_bind first_word lookup list_lookup].
      f_equal. apply short_id_is_field.
    + apply (bit_field_range w 26 6). lia.
    + intros i Hi. apply bit_field_bits; lia.
Qed.

Lemma short_packet_header_witness :
  Z.testbit 0x8C000001 31 = true /\
  is_short [0x8C000001; 17; 0xFFFFFFFF] = Some true /\
  get_n_words [0x8C000001; 17; 0xFFFFFFFF] = Some 1 /\
  exists v, get_data_id [0x8C000001; 17; 0xFFFFFFFF] true = Some v /\
            v = bit_field 0x8C000001 26 6 /\
            0 <= v < 64 /\
            forall i, 0 <= i -> Z.testbit v i = (i <? 6) && Z.testbit 0x8C000001 (26 + i).
Proof.
  split; [reflexivity |].
  apply (short_packet_header 0x8C000001 [17; 0xFFFFFFFF]). reflexivity.
Defined.

(** C4, as the spec states it, fails: the long packet whose first word is
    [0x01000000] (bit 24 set, bit 31 clear) has data id 64 with
    [shift=True], while bits 18..23 of that word hold 0; with
    [shift=False] the word's bit 24 is kept, outside bits 18..23. *)
Lemma long_data_id_six_bits_counterexample :
  is_short [0x01000000] = Some false /\
  get_data_id [0x01000000] true = Some 64 /\
  get_data_id [0x01000000] true <> Some (bit_field 0x01000000 18 6) /\
  get_data_id [0x01000000] false
    <> Some (Z.shiftl (bit_field 0x01000000 18 6) 18).
Proof. repeat split; vm_compute; congruence. Qed.

(** C4, amended: for a long packet, [get_data_id] with [shift=True] is the
    14-bit field held in bits 18..31 of the first word, moved down to bit 0,
    and with [shift=False] it is the same bits left in place (all other bits
    cleared). *)
Theorem long_packet_data_id (packet : list Z) (w : Z) :
  first_word packet = Some w ->
  is_short packet = Some false ->
  (exists v, get_data_id packet true = Some v /\
             v = bit_field w 18 14 /\
             0 <= v < 2 ^ 14 /\
             forall i, 0 <= i -> Z.testbit v i = (i <? 14) && Z.testbit w (18 + i)) /\
  (exists u, get_data_id packet false = Some u /\
             u = Z.shiftl (bit_field w 18 14) 18 /\
             forall i, 0 <= i ->
               Z.testbit u i = (18 <=? i) && (i <? 32) && Z.testbit w i).
Proof.
  intros Hw Hs. split.
  - exists (bit_field w 18 14). split; [| split; [reflexivity | split]].
    + unfold get_data_id. rewrite Hs, Hw. cbn [mbind option_bind].
      f_equal. apply long_id_is_field.
    + apply (bit_field_range w 18 14). lia.
    + intros i Hi. apply bit_field_bits; lia.
  - exists (Z.land w 0xFFFC0000).
    assert (forall i, 0 <= i ->
              Z.testbit (Z.land w 0xFFFC0000) i
              = (18 <=? i) && (i <? 32) && Z.testbit w i) as Hbits.
    { intros i Hi. rewrite Z.land_spec, mask_long_bits by lia. apply andb_comm. }
    split; [| split; [| exact Hbits]].
    + unfold get_data_id. rewrite Hs, Hw. reflexivity.
    + apply Z.bits_inj'. intros i Hi. rewrite Hbits by lia.
      rewrite Z.shiftl_spec by lia.
      destruct (Z.leb_spec 18 i) as [Hge | Hlt].
      * rewrite bit_field_bits by lia.
        replace (18 + (i - 18)) with i by lia.
        destruct (Z.ltb_spec i 32), (Z.ltb_spec (i - 18) 14); try lia; reflexivity.
      * rewrite (Z.testbit_neg_r _ (i - 18)) by lia. reflexivity.
Qed.

Lemma long_packet_data_id_witness :
  first_word [0x01040003; 1; 2] = Some 0x01040003 /\
  is_short [0x01040003; 1; 2] = Some false /\
  get_data_id [0x01040003; 1; 2] true = Some 65 /\
  get_data_id [0x01040003; 1; 2] false = Some 0x01040000.
Proof.
  split; [reflexivity |]. split; [reflexivity |].
  destruct (long_packet_data_id [0x01040003; 1; 2] 0x01040003 eq_refl eq_refl)
    as [(v & Hv & -> & _) [u [Hu [-> _]]]].
  split; [exact Hv | exact Hu].
Defined.

(** ** Further properties of the header functions *)

Lemma uint32_high_bits w i : uint32 w -> 32 <= i -> Z.testbit w i = false.
Proof.
  intros [Hlo Hhi] Hi.
  destruct (Z.eq_dec w 0) as [-> | Hw]; [apply Z.bits_0 |].
  apply Z.bits_above_log2; [lia |].
  assert (Z.log2 w < 32) by (apply Z.log2_lt_pow2; lia). lia.
Qed.

Lemma shiftr31_zero w : uint32 w -> Z.shiftr w 31 = 0 -> w < 2 ^ 31.
Proof.
  intros [Hlo Hhi] Hz. rewrite Z.shiftr_div_pow2 in Hz by lia.
  change (2 ^ 32) with 4294967296 in Hhi.
  change (2 ^ 31) with 2147483648 in *.
  Z.div_mod_to_equations. lia.
Qed.

Lemma shiftr31_nonzero w : uint32 w -> Z.shiftr w 31 <> 0 -> 2 ^ 31 <= w.
Proof.
  intros [Hlo Hhi] Hz. rewrite Z.shiftr_div_pow2 in Hz by lia.
  change (2 ^ 32) with 4294967296 in Hhi.
  change (2 ^ 31) with 2147483648 in *.
  Z.div_mod_to_equations. lia.
Qed.

Lemma is_short_false_shiftr w payload :
  is_short (w :: payload) = Some false -> Z.shiftr w 31 = 0.
Proof.
  rewrite is_short_cons.
  destruct (Z.eqb_spec (Z.shiftr w 31) 0) as [Hz | Hz]; [done | discriminate].
Qed.

Lemma is_short_true_shiftr w payload :
  is_short (w :: payload) = Some true -> Z.shiftr w 31 <> 0.
Proof.
  rewrite is_short_cons.
  destruct (Z.eqb_spec (Z.shiftr w 31) 0) as [Hz | Hz]; [discriminate | done].
Qed.

Lemma bit_field_div w lo width :
  0 <= lo -> 0 <= width -> bit_field w lo width = (w / 2 ^ lo) mod 2 ^ width.
Proof.
  intros Hlo Hw. unfold bit_field.
  by rewrite Z.land_ones, Z.shiftr_div_pow2 by lia.
Qed.

(** The first word of a long packet is made of its two fields and nothing
    else: with [id] the data id ([shift=True]) and [n] the word count, the
    word is [id * 2^18 + n], the id is below [2^13] and the count below
    [2^18]. *)
Theorem long_header_fields (w : Z) (payload : list Z) :
  uint32 w ->
  is_short (w :: payload) = Some false ->
  exists id n,
    get_data_id (w :: payload) true = Some id /\
    get_n_words (w :: payload) = Some n /\
    0 <= id < 2 ^ 13 /\ 0 <= n < 2 ^ 18 /\
    w = id * 2 ^ 18 + n.
Proof.
  intros Hw Hs.
  assert (w < 2 ^ 31) as Hlong.
  { apply shiftr31_zero; [done |]. by eapply is_short_false_shiftr. }
  destruct Hw as [Hlo Hhi].
  exists (w / 2 ^ 18), (w mod 2 ^ 18).
  assert ((w / 2 ^ 18) mod 2 ^ 14 = w / 2 ^ 18) as Hid.
  { apply Z.mod_small.
    change (2 ^ 31) with 2147483648 in Hlong.
    change (2 ^ 18) with 262144. change (2 ^ 14) with 16384.
    Z.div_mod_to_equations. lia. }
  split; [| split; [| split; [| split]]].
  - unfold get_data_id. rewrite Hs. cbn [mbind option_bind first_word lookup list_lookup].
    f_equal. rewrite long_id_is_field, bit_field_div by lia. exact Hid.
  - unfold get_n_words. rewrite Hs. cbn [mbind option_bind first_word lookup list_lookup].
    f_equal. change 0x3FFFF with (Z.ones 18). apply Z.land_ones. lia.
  - change (2 ^ 31) with 2147483648 in Hlong.
    change (2 ^ 18) with 262144. change (2 ^ 13) with 8192.
    Z.div_mod_to_equations. lia.
  - apply Z.mod_pos_bound. reflexivity.
  - change (2 ^ 18) with 262144. Z.div_mod_to_equations. lia.
Qed.

Lemma long_header_fields_witness :
  uint32 0x01040003 /\
  is_short [0x01040003; 1; 2] = Some false /\
  exists id n,
    get_data_id [0x01040003; 1; 2] true = Some id /\
    get_n_words [0x01040003; 1; 2] = Some n /\
    0 <= id < 2 ^ 13 /\ 0 <= n < 2 ^ 18 /\
    0x01040003 = id * 2 ^ 18 + n.
Proof.
  assert (uint32 0x01040003) as Hw by (unfold uint32; split; [lia | reflexivity]).
  split; [exact Hw |]. split; [reflexivity |].
  exact (long_header_fields 0x01040003 [1; 2] Hw eq_refl).
Defined.

(** For a short packet the data id ([shift=True]) is the first word divided
    by [2^26]; it lies in 32..63, because the bit that marks the packet as
    short is the top bit of the id, and the id with [shift=False] is the
    same number moved back up by 26 bits. *)
Theorem short_header_fields (w : Z) (payload : list Z) :
  uint32 w ->
  is_short (w :: payload) = Some true ->
  exists id,
    get_data_id (w :: payload) true = Some id /\
    id = w / 2 ^ 26 /\
    32 <= id < 64 /\
    get_data_id (w :: payload) false = Some (id * 2 ^ 26).
Proof.
  intros Hw Hs.
  assert (2 ^ 31 <= w) as Hshort.
  { apply shiftr31_nonzero; [done |]. by eapply is_short_true_shiftr. }
  pose proof Hw as [Hlo Hhi].
  assert ((w / 2 ^ 26) mod 2 ^ 6 = w / 2 ^ 26) as Hid.
  { apply Z.mod_small.
    change (2 ^ 32) with 4294967296 in Hhi.
    change (2 ^ 26) with 67108864. change (2 ^ 6) with 64.
    Z.div_mod_to_equations. lia. }
  exists (w / 2 ^ 26). split; [| split; [done | split]].
  - unfold get_data_id. rewrite Hs. cbn [mbind option_bind first_word lookup list_lookup].
    f_equal. rewrite short_id_is_field, bit_field_div by lia. exact Hid.
  - change (2 ^ 32) with 4294967296 in Hhi.
    change (2 ^ 31) with 2147483648 in Hshort.
    change (2 ^ 26) with 67108864.
    Z.div_mod_to_equations. lia.
  - unfold get_data_id. rewrite Hs. cbn [mbind option_bind first_word lookup list_lookup].
    f_equal. rewrite <- Z.shiftl_mul_pow2 by lia.
    apply Z.bits_inj'. intros i Hi.
    rewrite Z.land_spec, mask_short_bits, Z.shiftl_spec by lia.
    destruct (Z.leb_spec 26 i) as [Hge | Hlt]; cbn [andb].
    + rewrite <- Z.shiftr_div_pow2, Z.shiftr_spec by lia.
      replace (i - 26 + 26) with i by lia.
      destruct (Z.ltb_spec i 32) as [Hin | Hout]; [apply andb_true_r |].
      rewrite andb_false_r. symmetry. apply uint32_high_bits; [done | lia].
    + rewrite andb_false_r. symmetry. apply Z.testbit_neg_r. lia.
Qed.

Lemma short_header_fields_witness :
  uint32 0x8C000001 /\
  is_short [0x8C000001; 17] = Some true /\
  exists id,
    get_data_id [0x8C000001; 17] true = Some id /\
    id = 0x8C000001 / 2 ^ 26 /\
    32 <= id < 64 /\
    get_data_id [0x8C000001; 17] false = Some (id * 2 ^ 26).
Proof.
  assert (uint32 0x8C000001) as Hw by (unfold uint32; split; [lia | reflexivity]).
  split; [exact Hw |]. split; [reflexivity |].
  exact (short_header_fields 0x8C000001 [17] Hw eq_refl).
Defined.

(** On [uint32] words [is_short] is the top bit of the first word, and
    nothing else of the packet. *)
Theorem is_short_is_bit_31 (w : Z) (payload : list Z) :
  uint32 w -> is_short (w :: payload) = Some (Z.testbit w 31).
Proof.
  intros Hw. rewrite is_short_cons, uint32_shiftr31 by exact Hw.
  by rewrite negb_involutive.
Qed.

Lemma is_short_is_bit_31_witness :
  uint32 0x7FFFFFFF /\ is_short [0x7FFFFFFF; 5] = Some (Z.testbit 0x7FFFFFFF 31).
Proof.
  assert (uint32 0x7FFFFFFF) as Hw by (unfold uint32; split; [lia | reflexivity]).
  split; [exact Hw |]. exact (is_short_is_bit_31 0x7FFFFFFF [5] Hw).
Defined.

(** The three header functions fail (the [IndexError] of [packet[0]]) on
    the empty packet and on no other. *)
Theorem header_functions_defined (packet : list Z) (shift : bool) :
  (is_short packet = None <-> packet = []) /\
  (get_n_words packet = None <-> packet = []) /\
  (get_data_id packet shift = None <-> packet = []).
Proof.
  destruct packet as [| w payload].
  - repeat split; done.
  - unfold get_n_words, get_data_id. rewrite is_short_cons.
    cbn [mbind option_bind first_word lookup list_lookup].
    repeat split; try done;
      destruct (negb (Z.shiftr w 31 =? 0)), shift; done.
Qed.

End OrcaPacketProps.

(** * Properties of the vector of vectors *)
Module VoVProps.
Import VoV.
Local Open Scope nat_scope.

Section Growth.
Context {A : Type} (zero : A).
Implicit Types (a values : list A) (self : VectorOfVectors (A:=A)).

Lemma length_ndarray_resize a n : length (ndarray_resize zero a n) = n.
Proof.
  unfold ndarray_resize. rewrite length_app, length_take, length_replicate. lia.
Qed.

(** Growing an array keeps what it held. *)
Lemma ndarray_resize_grow a n :
  length a <= n -> ndarray_resize zero a n = a ++ replicate (n - length a) zero.
Proof. intros Hn. unfold ndarray_resize. by rewrite take_ge. Qed.

Lemma lookup_ndarray_resize a n p :
  p < length a -> length a <= n -> ndarray_resize zero a n !! p = a !! p.
Proof.
  intros Hp Hn. rewrite ndarray_resize_grow by done. by apply lookup_app_l.
Qed.

(** The loop stops at once exactly when [end < len]. *)
Lemma grow_fits fuel end_ a :
  (end_ < N.of_nat (length a))%N -> grow zero fuel end_ a = Some a.
Proof.
  intros Hlt. destruct fuel; simpl;
    (destruct (N.leb_spec (N.of_nat (length a)) end_); [lia | done]).
Qed.

Lemma grow_step fuel end_ a :
  (N.of_nat (length a) <= end_)%N ->
  grow zero (S fuel) end_ a = grow zero fuel end_ (ndarray_resize zero a (2 * length a)).
Proof.
  intros Hle. simpl. destruct (N.leb_spec (N.of_nat (length a)) end_); [done | lia].
Qed.

(** What the loop leaves: a buffer longer than [end] that starts with the
    old buffer and whose length is the old length doubled some number of
    times. *)
Lemma grow_Some fuel end_ a grown :
  grow zero fuel end_ a = Some grown ->
  (end_ < N.of_nat (length grown))%N /\
  (exists k, doublings zero fuel end_ a = Some k /\
             length grown = 2 ^ k * length a) /\
  take (length a) grown = a.
Proof.
  revert a. induction fuel as [| fuel IH]; intros a; simpl;
    destruct (N.leb_spec (N.of_nat (length a)) end_) as [Hle | Hlt];
    intros Hg; simplify_eq.
  - split; [done |]. split; [exists 0; simpl; split; [done | lia] |].
    by rewrite take_ge.
  - destruct (IH _ Hg) as (Hend & (k & Hk & Hlen) & Hpre).
    rewrite length_ndarray_resize in Hlen, Hpre.
    split; [done |]. split.
    + exists (S k). rewrite Hk. split; [done |].
      rewrite Hlen. rewrite Nat.pow_succ_r'. lia.
    + apply (f_equal (take (length a))) in Hpre.
      rewrite take_take in Hpre.
      rewrite Nat.min_l in Hpre by lia. rewrite Hpre.
      rewrite ndarray_resize_grow by lia. by rewrite take_app_length.
  - split; [done |]. split; [exists 0; simpl; split; [done | lia] |].
    by rewrite take_ge.
Qed.

(** A non-empty buffer is long enough after finitely many doublings. *)
Lemma grow_terminates fuel end_ a :
  a <> [] -> N.to_nat end_ + 1 - length a <= fuel ->
  exists grown, grow zero fuel end_ a = Some grown.
Proof.
  revert a. induction fuel as [| fuel IH]; intros a Hne Hfuel.
  - exists a. apply grow_fits.
    destruct a; [done |]. simpl in *. lia.
  - destruct (N.leb_spec (N.of_nat (length a)) end_) as [Hle | Hlt].
    + rewrite grow_step by done. apply IH.
      * intros Hnil. apply (f_equal length) in Hnil.
        rewrite length_ndarray_resize in Hnil.
        destruct a; [done |]. simpl in Hnil. lia.
      * rewrite length_ndarray_resize.
        destruct a; [done |]. simpl in *. lia.
    + exists a. by apply grow_fits.
Qed.

(** More fuel does not change what the loop leaves. *)
Lemma grow_more_fuel fuel fuel' end_ a grown :
  grow zero fuel end_ a = Some grown -> fuel <= fuel' ->
  grow zero fuel' end_ a = Some grown.
Proof.
  revert fuel' a. induction fuel as [| fuel IH]; intros fuel' a; simpl;
    destruct (N.leb_spec (N.of_nat (length a)) end_) as [Hle | Hlt];
    intros Hg Hf; simplify_eq.
  - by apply grow_fits.
  - destruct fuel' as [| fuel']; [lia |].
    rewrite grow_step by done. apply IH; [done | lia].
  - by apply grow_fits.
Qed.

(** An empty buffer stays empty when doubled: the loop never ends. *)
Lemma grow_empty fuel end_ : grow zero fuel end_ [] = None.
Proof.
  induction fuel as [| fuel IH]; simpl.
  - by destruct end_.
  - destruct end_; exact IH.
Qed.

(** A slice assignment of as many values as the slice has places. *)
Lemma setslice_fits a (start stop : N) values :
  N.to_nat stop <= length a ->
  N.to_nat stop = N.to_nat start + length values ->
  setslice a start stop values
  = Some (take (N.to_nat start) a ++ values ++ drop (N.to_nat stop) a).
Proof.
  intros Hstop Hlen. unfold setslice.
  rewrite (Nat.min_l (N.to_nat start)) by lia.
  rewrite (Nat.min_l (N.to_nat stop)) by lia.
  rewrite (Nat.max_r (N.to_nat start)) by lia.
  rewrite decide_True by lia. done.
Qed.

Lemma lookup_written a (lo : nat) values hi p :
  hi = lo + length values -> hi <= length a ->
  (take lo a ++ values ++ drop hi a) !! p
  = if decide (p < lo) then a !! p
    else if decide (p < hi) then values !! (p - lo)
    else a !! p.
Proof.
  intros -> Hhi.
  assert (length (take lo a) = lo) as Hl by (rewrite length_take; lia).
  repeat case_decide.
  - rewrite lookup_app_l by lia. apply lookup_take_lt. lia.
  - rewrite lookup_app_r by lia. rewrite Hl.
    rewrite lookup_app_l by lia. done.
  - rewrite lookup_app_r by lia. rewrite Hl.
    rewrite lookup_app_r by lia. rewrite lookup_drop. f_equal. lia.
Qed.

End Growth.

Section SetVector.
Context {A : Type} (zero : A).
Implicit Types (a values : list A) (self : VectorOfVectors (A:=A)).

Lemma bad_i_vec_test (i_vec : Z) (n : nat) :
  ((i_vec <? 0) || (i_vec >? Z.of_nat n - 1))%Z = false
  <-> (0 <= i_vec < Z.of_nat n)%Z.
Proof.
  rewrite orb_false_iff, Z.ltb_ge, Z.gtb_ltb, Z.ltb_ge. lia.
Qed.

(** In range, [cumulative_length.nda[i_vec-1]] exists. *)
Lemma start_exists (i_vec : Z) self :
  (0 <= i_vec < Z.of_nat (length (cum self)))%Z ->
  exists start,
    (if (i_vec =? 0)%Z then Some 0%N else cum self !! Z.to_nat (i_vec - 1))
    = Some start.
Proof.
  intros Hi. destruct (Z.eqb_spec i_vec 0); [by eexists |].
  apply lookup_lt_is_Some. lia.
Qed.

(** What a call that passes both checks and leaves the loop does. *)
Lemma set_vector_ok fuel (i_vec : Z) values self start grown :
  (0 <= i_vec < Z.of_nat (length (cum self)))%Z ->
  (if (i_vec =? 0)%Z then Some 0%N else cum self !! Z.to_nat (i_vec - 1))
  = Some start ->
  grow zero fuel (start + N.of_nat (length values)) (flat self) = Some grown ->
  set_vector zero fuel i_vec (Nd1 values) self
  = Returned tt
      (with_cum
         (with_flat self
            (take (N.to_nat start) grown ++ values
               ++ drop (N.to_nat start + length values) grown))
         (<[Z.to_nat i_vec := ((start + N.of_nat (length values)) mod 2 ^ 32)%N]>
            (cum self))).
Proof.
  intros Hi Hstart Hgrow. unfold set_vector.
  apply bad_i_vec_test in Hi. rewrite Hi. cbn [shape length Nat.eqb negb].
  rewrite Hstart. cbn [len shape head]. rewrite Hgrow. cbn [ravel].
  destruct (grow_Some _ _ _ _ _ Hgrow) as (Hend & _ & _).
  rewrite setslice_fits by lia.
  replace (N.to_nat (start + N.of_nat (length values)))
    with (N.to_nat start + length values) by lia.
  reflexivity.
Qed.

(** With no other array referring to the buffer the checked loop is the
    loop of [grow]. *)
Lemma grow_checked_owned fuel (end_ : N) a :
  grow_checked zero false fuel end_ a = inr <$> grow zero fuel end_ a.
Proof.
  revert a. induction fuel as [| fuel IH]; intros a; simpl;
    destruct (N.leb_spec (N.of_nat (length a)) end_); try done.
  unfold ndarray_resize_checked.
  destruct (length a + (length a + 0) =? length a); apply IH.
Qed.

Lemma set_vector_checked_owned fuel (i_vec : Z) (nd : ndarray) self :
  set_vector_checked zero false fuel i_vec nd self = set_vector zero fuel i_vec nd self.
Proof.
  unfold set_vector_checked, set_vector.
  destruct ((i_vec <? 0) || (i_vec >? Z.of_nat (length (cum self)) - 1))%Z; [done |].
  destruct (negb (length (shape nd) =? 1)); [done |].
  destruct (if (i_vec =? 0)%Z then Some 0%N else cum self !! Z.to_nat (i_vec - 1));
    [| done].
  destruct (len nd); [| done].
  rewrite grow_checked_owned. by destruct (grow zero fuel _ (flat self)).
Qed.






(** On an empty flattened buffer a call that passes both checks never
    leaves the doubling loop. *)
Lemma set_vector_empty_buffer fuel (i_vec : Z) values self :
  (0 <= i_vec < Z.of_nat (length (cum self)))%Z ->
  flat self = [] ->
  set_vector zero fuel i_vec (Nd1 values) self = OutOfFuel.
Proof.
  intros Hi Hflat. destruct (start_exists i_vec self Hi) as [start Hstart].
  unfold set_vector. apply bad_i_vec_test in Hi. rewrite Hi.
  cbn [shape length Nat.eqb negb]. rewrite Hstart. cbn [len shape head].
  by rewrite Hflat, grow_empty.
Qed.

End SetVector.

Section RoundTrip.
Context {A : Type} (zero : A).
Implicit Types (a values r : list A) (rows : list (list A))
               (self : VectorOfVectors (A:=A)).

(** One doubling loop serves every large enough fuel. *)
Lemma grow_enough (end_ : N) a :
  a <> [] ->
  exists grown, forall fuel,
    N.to_nat end_ + 1 - length a <= fuel -> grow zero fuel end_ a = Some grown.
Proof.
  intros Hne.
  destruct (grow_terminates zero (N.to_nat end_ + 1 - length a) end_ a Hne)
    as [grown Hg]; [done |].
  exists grown. intros fuel Hf. by apply (grow_more_fuel zero _ _ _ _ _ Hg).
Qed.

(** Writing one row: [cumulative_length[k]] becomes the end of the row, the
    row is in the buffer from [off] on, and what lay before [off] is kept. *)
Lemma set_vector_row (k off : nat) r self :
  starts_at self k off ->
  k < length (cum self) ->
  flat self <> [] ->
  off <= length (flat self) ->
  (N.of_nat (off + length r) < 2 ^ 32)%N ->
  exists self',
    (forall fuel, off + length r < fuel ->
       set_vector zero fuel (Z.of_nat k) (Nd1 r) self = Returned tt self') /\
    cum self' = <[k := N.of_nat (off + length r)]> (cum self) /\
    index self' = index self /\
    off + length r < length (flat self') /\
    (forall p, p < off -> flat self' !! p = flat self !! p) /\
    (forall p, p < length r -> flat self' !! (off + p) = r !! p).
Proof.
  intros Hst Hk Hne Hoff Hsmall.
  assert ((if (Z.of_nat k =? 0)%Z then Some 0%N
           else cum self !! Z.to_nat (Z.of_nat k - 1)) = Some (N.of_nat off))
    as Hstart.
  { unfold starts_at in Hst. destruct (Z.eqb_spec (Z.of_nat k) 0) as [Hz | Hz].
    - rewrite decide_True in Hst by lia. by subst.
    - rewrite decide_False in Hst by lia.
      by replace (Z.to_nat (Z.of_nat k - 1)) with (k - 1) by lia. }
  assert (0 < length (flat self)) as Hpos
    by (destruct (flat self); [done | simpl; lia]).
  destruct (grow_enough (N.of_nat off + N.of_nat (length r)) (flat self) Hne)
    as [grown Hgrown].
  assert (grow zero (off + length r) (N.of_nat off + N.of_nat (length r)) (flat self)
          = Some grown) as Hg by (apply Hgrown; lia).
  destruct (grow_Some _ _ _ _ _ Hg) as (Hend & _ & Hpre).
  eexists. split; [| split; [| split; [| split; [| split]]]].
  - intros fuel Hfuel. apply set_vector_ok; [lia | exact Hstart |].
    apply Hgrown. lia.
  - cbn. rewrite Nat2Z.id. f_equal.
    rewrite <- Nat2N.inj_add. by apply N.mod_small.
  - reflexivity.
  - cbn. rewrite !length_app, length_take, length_drop. lia.
  - intros p Hp. cbn. rewrite Nat2N.id.
    rewrite (lookup_written _ _ _ (off + length r)) by lia.
    rewrite decide_True by done.
    rewrite <- Hpre at 1. symmetry. apply lookup_take_lt. lia.
  - intros p Hp. cbn. rewrite Nat2N.id.
    rewrite (lookup_written _ _ _ (off + length r)) by lia.
    rewrite decide_False by lia. rewrite decide_True by lia.
    f_equal. lia.
Qed.

(** Writing rows at the indices [k], [k+1], ... from the offset [off]. *)
Lemma set_vectors_from rows : forall (k off : nat) self,
  starts_at self k off ->
  k + length rows <= length (cum self) ->
  flat self <> [] ->
  off <= length (flat self) ->
  (N.of_nat (off + length (concat rows)) < 2 ^ 32)%N ->
  exists self',
    (forall fuel, off + length (concat rows) < fuel ->
       set_vectors zero fuel (Z.of_nat k) rows self = Returned tt self') /\
    length (cum self') = length (cum self) /\
    (forall j, j < k -> cum self' !! j = cum self !! j) /\
    (forall j, j < length rows ->
       cum self' !! (k + j)
       = Some (N.of_nat (off + length (concat (take (S j) rows))))) /\
    (forall p, p < off -> flat self' !! p = flat self !! p) /\
    (forall p x, concat rows !! p = Some x -> flat self' !! (off + p) = Some x) /\
    index self' = index self.
Proof.
  induction rows as [| r rows IH]; intros k off self Hst Hk Hne Hoff Hsmall.
  - exists self. repeat split; try done.
    intros j Hj. simpl in Hj. lia.
  - simpl in Hk, Hsmall. rewrite length_app in Hsmall.
    destruct (set_vector_row k off r self) as
      (self1 & Hrun1 & Hcum1 & Hidx1 & Hlen1 & Hkeep1 & Hrow1);
      [done | lia | done | done | lia |].
    destruct (IH (S k) (off + length r) self1) as
      (self' & Hrun & Hlen & Hlow & Hhigh & Hkeep & Hrows & Hidx).
    { unfold starts_at. rewrite decide_False by lia.
      replace (S k - 1) with k by lia. rewrite Hcum1.
      apply list_lookup_insert_eq. lia. }
    { rewrite Hcum1, length_insert. lia. }
    { intros Hnil. rewrite Hnil in Hlen1. simpl in Hlen1. lia. }
    { lia. }
    { by rewrite <- Nat.add_assoc. }
    exists self'. split; [| split; [| split; [| split; [| split; [| split]]]]].
    + intros fuel Hfuel. simpl in Hfuel. rewrite length_app in Hfuel.
      cbn [set_vectors]. rewrite Hrun1 by lia.
      replace (Z.of_nat k + 1)%Z with (Z.of_nat (S k)) by lia.
      apply Hrun. lia.
    + rewrite Hlen, Hcum1. apply length_insert.
    + intros j Hj. rewrite Hlow by lia. rewrite Hcum1.
      apply list_lookup_insert_ne. lia.
    + intros j Hj. simpl in Hj. destruct j as [| j].
      * rewrite Nat.add_0_r. rewrite Hlow by lia. rewrite Hcum1.
        rewrite list_lookup_insert_eq by lia.
        simpl. by rewrite app_nil_r.
      * replace (k + S j) with (S k + j) by lia. rewrite Hhigh by lia.
        do 2 f_equal. cbn [take concat]. rewrite length_app. lia.
    + intros p Hp. rewrite Hkeep by lia. by apply Hkeep1.
    + intros p x Hx. simpl in Hx.
      destruct (decide (p < length r)) as [Hin | Hout].
      * rewrite lookup_app_l in Hx by done.
        rewrite Hkeep by lia. rewrite Hrow1 by done. done.
      * rewrite lookup_app_r in Hx by lia.
        replace (off + p) with (off + length r + (p - length r)) by lia.
        by apply Hrows.
    + by rewrite Hidx.
Qed.

End RoundTrip.

Section Reading.
Context {A : Type} (zero : A).
Implicit Types (a values r : list A) (rows : list (list A))
               (self : VectorOfVectors (A:=A)).

Lemma stored_row_in self i :
  i < length (cum self) -> is_Some (stored_row self i).
Proof.
  intros Hi. unfold stored_row, row_bounds.
  destruct (lookup_lt_is_Some_2 (cum self) i Hi) as [e He].
  destruct (Nat.eqb_spec i 0) as [-> | Hne].
  - rewrite He. by eexists.
  - destruct (lookup_lt_is_Some_2 (cum self) (i - 1)) as [s Hs]; [lia |].
    rewrite Hs, He. by eexists.
Qed.

Lemma stored_row_out self i :
  length (cum self) <= i -> stored_row self i = None.
Proof.
  intros Hi. unfold stored_row, row_bounds.
  destruct (Nat.eqb_spec i 0) as [-> | Hne];
    rewrite (lookup_ge_None_2 (cum self) _ Hi); [done |].
  by destruct (cum self !! (i - 1)).
Qed.

Lemma with_index_same self i : index self = Some i -> with_index self (Some i) = self.
Proof. destruct self. simpl. by intros ->. Qed.

(** Iteration from index [i] returns the stored rows [i], [i+1], ... up
    to the last index of [cumulative_length], and then stops. *)
Lemma exhaust_from n : forall i self fuel,
  index self = Some i ->
  i + n = length (cum self) ->
  n < fuel ->
  exhaust fuel self
  = Returned (stored_rows self i n) (with_index self (Some (length (cum self)))).
Proof.
  induction n as [| n IH]; intros i self fuel Hidx Hlen Hfuel;
    (destruct fuel as [| fuel]; [lia |]); cbn [exhaust]; unfold next; rewrite Hidx.
  - rewrite stored_row_out by lia.
    rewrite with_index_same; [done |]. rewrite Hidx. f_equal. lia.
  - destruct (stored_row_in self i) as [row Hrow]; [lia |]. rewrite Hrow.
    rewrite (IH (S i));
      [| done | change (S i + n = length (cum self)); lia | lia].
    unfold stored_rows. cbn [seq fmap list_fmap]. rewrite Hrow. reflexivity.
Qed.

(** The slice between two consecutive offsets of a buffer that starts with
    the concatenated rows is the row. *)
Lemma getslice_row rows a i r :
  (forall p x, concat rows !! p = Some x -> a !! p = Some x) ->
  rows !! i = Some r ->
  getslice a (N.of_nat (length (concat (take i rows))))
             (N.of_nat (length (concat (take (S i) rows)))) = r.
Proof.
  intros Ha Hr. unfold getslice. rewrite !Nat2N.id.
  rewrite (take_S_r _ _ _ Hr), concat_app, length_app. cbn [concat].
  rewrite app_nil_r.
  set (L := length (concat (take i rows))).
  replace (L + length r - L) with (length r) by lia.
  apply list_eq. intros p.
  destruct (decide (p < length r)) as [Hin | Hout].
  - rewrite lookup_take_lt, lookup_drop by done.
    destruct (lookup_lt_is_Some_2 r p Hin) as [x Hx]. rewrite Hx.
    apply Ha.
    rewrite <- (take_drop_middle rows i r Hr), concat_app. cbn [concat].
    rewrite lookup_app_r by (unfold L; lia).
    replace (L + p - length (concat (take i rows))) with p by (unfold L; lia).
    by rewrite lookup_app_l.
  - rewrite lookup_take_ge by lia. symmetry. apply lookup_ge_None_2. lia.
Qed.

(** C1: rows written with [set_vector] at the indices 0, 1, ..., n in
    order are the first rows that iteration returns, row for row. The
    store has room for the rows in [cumulative_length], its flattened
    buffer is not empty (doubling an empty buffer gains nothing), and the
    rows together stay below the [uint32] range of the offsets. The writes
    return, and so does the read. *)
Theorem set_vector_iter_roundtrip (self : VectorOfVectors) (rows : list (list A)) :
  flat self <> [] ->
  length rows <= length (cum self) ->
  (N.of_nat (length (concat rows)) < 2 ^ 32)%N ->
  exists written out final,
    (forall fuel, length (concat rows) < fuel ->
       set_vectors zero fuel 0 rows self = Returned tt written) /\
    (forall fuel, length (cum self) < fuel ->
       to_list fuel written = Returned out final) /\
    length out = length (cum self) /\
    (forall i r, rows !! i = Some r -> out !! i = Some r).
Proof.
  intros Hne Hroom Hsmall.
  destruct (set_vectors_from zero rows 0 0 self) as
    (written & Hrun & Hlen & _ & Hcum & _ & Hflat & _);
    [done | simpl; lia | done | lia | done |].
  exists written, (stored_rows written 0 (length (cum self))),
    (with_index written (Some (length (cum self)))).
  split; [| split; [| split]].
  - intros fuel Hfuel. apply (Hrun fuel). simpl. lia.
  - intros fuel Hfuel. unfold to_list.
    rewrite (exhaust_from (length (cum self)) 0);
      [| done | change (cum (iter written)) with (cum written); lia | done].
    change (cum (iter written)) with (cum written). rewrite Hlen.
    reflexivity.
  - unfold stored_rows. by rewrite length_fmap, length_seq.
  - intros i r Hr.
    assert (i < length rows) as Hi by (by eapply lookup_lt_Some).
    unfold stored_rows. rewrite list_lookup_fmap, lookup_seq_lt by lia.
    cbn [fmap option_fmap option_map]. f_equal. cbn [Nat.add].
    assert (stored_row written i = Some r) as ->; [| done].
    unfold stored_row, row_bounds.
    pose proof (Hcum i Hi) as Hend. cbn [Nat.add] in Hend.
    destruct (Nat.eqb_spec i 0) as [-> | Hnz].
    + rewrite Hend. cbn. f_equal.
      apply (getslice_row rows (flat written) 0 r); [| done].
      intros p x Hx. by apply (Hflat p x).
    + pose proof (Hcum (i - 1)) as Hstart. cbn [Nat.add] in Hstart.
      rewrite Hstart by lia. replace (S (i - 1)) with i by lia.
      rewrite Hend. cbn. f_equal.
      apply (getslice_row rows (flat written) i r); [| done].
      intros p x Hx. by apply (Hflat p x).
Qed.

End Reading.

Lemma set_vector_iter_roundtrip_witness :
  let rows := [[1; 2; 3]; []; [4; 5; 6; 7; 8]]%Z in
  flat small_store <> [] /\
  length rows <= length (cum small_store) /\
  (N.of_nat (length (concat rows)) < 2 ^ 32)%N /\
  exists written out final,
    (forall fuel, length (concat rows) < fuel ->
       set_vectors 0%Z fuel 0 rows small_store = Returned tt written) /\
    (forall fuel, length (cum small_store) < fuel ->
       to_list fuel written = Returned out final) /\
    length out = length (cum small_store) /\
    (forall i r, rows !! i = Some r -> out !! i = Some r).
Proof.
  intros rows.
  assert (flat small_store <> []) as H1 by discriminate.
  assert (length rows <= length (cum small_store)) as H2 by (simpl; lia).
  assert (N.of_nat (length (concat rows)) < 2 ^ 32)%N as H3 by reflexivity.
  split; [exact H1 |]. split; [exact H2 |]. split; [exact H3 |].
  exact (set_vector_iter_roundtrip 0%Z small_store rows H1 H2 H3).
Defined.

(** The same rows, run: the third row is longer than the initial capacity
    and the buffer is doubled from 2 to 16; iteration returns the three rows
    and then the empty fourth row. *)
Example small_store_run :
  exists written,
    set_vectors 0%Z 10 0 [[1; 2; 3]; []; [4; 5; 6; 7; 8]]%Z small_store
    = Returned tt written /\
    flat written = [1; 2; 3; 4; 5; 6; 7; 8; 0; 0; 0; 0; 0; 0; 0; 0]%Z /\
    cum written = [3; 3; 8; 0]%N /\
    exists final,
      to_list 10 written
      = Returned [[1; 2; 3]; []; [4; 5; 6; 7; 8]; []]%Z final.
Proof. eexists. split; [reflexivity |]. repeat split. eexists. reflexivity. Qed.



(** C7, on the code: a row that fits the buffer exactly ([end] equal to the
    capacity, here 4) still makes the loop double the buffer once, to 8; the
    four values written are kept. *)
Theorem exact_fit_doubles :
  doublings 0%Z 5 4 (flat store_of_four) = Some 1 /\
  exists written,
    set_vector 0%Z 5 0 (Nd1 [1; 2; 3; 4]%Z) store_of_four = Returned tt written /\
    flat written = [1; 2; 3; 4; 0; 0; 0; 0]%Z /\
    length (flat store_of_four) = 4 /\ length (flat written) = 8.
Proof. split; [reflexivity |]. eexists. split; [reflexivity |]. done. Qed.

(** The loop doubles whenever [end] is not below the capacity, and so also
    when [end] equals it. *)
Lemma grow_at_capacity {A : Type} (zero : A) (fuel : nat) (a : list A) :
  grow zero (S fuel) (N.of_nat (length a)) a
  = grow zero fuel (N.of_nat (length a)) (ndarray_resize zero a (2 * length a)).
Proof. apply grow_step. lia. Qed.

(** C9: [resize] changes [cumulative_length] alone, which takes the new
    length and keeps the entries it had below it; the flattened buffer, the
    element type and the iteration cursor are as they were. *)
Theorem resize_offsets_only {A : Type} (new_size : nat) (self : VectorOfVectors (A:=A)) :
  flattened_data (resize new_size self) = flattened_data self /\
  length (cum (resize new_size self)) = new_size /\
  (forall i, i < new_size -> i < length (cum self) ->
     cum (resize new_size self) !! i = cum self !! i) /\
  dtype (resize new_size self) = dtype self /\
  index (resize new_size self) = index self.
Proof.
  split; [reflexivity |]. split; [| split; [| done]].
  - cbn. rewrite length_app, length_take, length_replicate. unfold cum. lia.
  - intros i Hnew Hold. cbn.
    rewrite lookup_app_l by (rewrite length_take; unfold cum in Hold; lia).
    by apply lookup_take_lt.
Qed.

Lemma resize_offsets_only_witness :
  flattened_data (resize 3 small_store) = flattened_data small_store /\
  length (cum (resize 3 small_store)) = 3 /\
  cum (resize 3 small_store) !! 1 = cum small_store !! 1.
Proof.
  destruct (resize_offsets_only 3 small_store) as (Hflat & Hlen & Hkeep & _).
  split; [exact Hflat |]. split; [exact Hlen |].
  apply Hkeep; simpl; lia.
Defined.

(** C10, as stated, fails when the caller supplies [cumulative_length]:
    construction with no flattened data, a dtype, the shape guess (2, 3) and
    the offsets [5; 7] keeps the offsets supplied; they are not a
    zero-filled array. *)
Lemma init_offsets_supplied_counterexample :
  exists v,
    init (fun _ => 0%Z) None (Some (mkArray [5; 7]%N "uint32")) (Some (2, 3))
         (Some "float64"%string) = inr v /\
    length (flat v) = 2 * 3 /\
    cum v = [5; 7]%N /\
    cum v <> replicate 2 0%N.
Proof. eexists. split; [reflexivity |]. repeat split. discriminate. Qed.

(** C10, amended: with no flattened data and a shape guess, construction
    raises the [ValueError] when no dtype is given either; with a dtype it
    returns a store whose flattened buffer has [shape_guess[0] *
    shape_guess[1]] elements and whose offsets are [shape_guess[0]] zeros
    when [cumulative_length] is [None], and the array supplied otherwise. *)
Theorem init_without_flattened_data {A : Type} (uninitialised : nat -> A)
    (cumulative_length : option (Array N)) (shape_guess : nat * nat) :
  (exists msg,
     init uninitialised None cumulative_length (Some shape_guess) None
     = inl (ValueError msg)) /\
  (forall dt, exists v,
     init uninitialised None cumulative_length (Some shape_guess) (Some dt) = inr v /\
     length (flat v) = fst shape_guess * snd shape_guess /\
     dtype v = dt /\
     cum v = match cumulative_length with
             | None => replicate (fst shape_guess) 0%N
             | Some cl => nda cl
             end).
Proof.
  destruct shape_guess as [n0 n1]. split.
  - destruct cumulative_length; cbn; eauto.
  - intros dt. destruct cumulative_length as [cl |]; cbn; eexists;
      (split; [reflexivity |]); cbn;
      rewrite length_fmap, length_seq; done.
Qed.


(** ** Further properties of [set_vector] *)

Section SetVectorMore.
Context {A : Type} (zero : A).
Implicit Types (a values r : list A) (self : VectorOfVectors (A:=A)).

(** The buffer the loop leaves is the old buffer followed by zeros; its
    length is the old length doubled [k] times, and no smaller number of
    doublings would have brought it above [end]. *)
Lemma grow_minimal fuel (end_ : N) a grown :
  grow zero fuel end_ a = Some grown ->
  exists k,
    doublings zero fuel end_ a = Some k /\
    length grown = 2 ^ k * length a /\
    grown = a ++ replicate (length grown - length a) zero /\
    N.to_nat end_ < length grown /\
    (forall j, j < k -> 2 ^ j * length a <= N.to_nat end_).
Proof.
  revert a. induction fuel as [| fuel IH]; intros a; simpl;
    destruct (N.leb_spec (N.of_nat (length a)) end_) as [Hle | Hlt];
    intros Hg; simplify_eq.
  - exists 0. simpl. rewrite Nat.add_0_r, Nat.sub_diag. simpl.
    rewrite app_nil_r. repeat split; try done; lia.
  - destruct (IH _ Hg) as (k & Hk & Hlen & Hpad & Hend & Hmin).
    rewrite length_ndarray_resize in Hlen, Hpad.
    assert (1 <= 2 ^ k) by (apply Nat.neq_0_lt_0, Nat.pow_nonzero; lia).
    exists (S k). rewrite Hk. split; [done |].
    split; [rewrite Hlen, Nat.pow_succ_r'; lia |].
    split; [| split; [done |]].
    + rewrite Hpad at 1. rewrite ndarray_resize_grow by lia.
      rewrite <- app_assoc. f_equal. rewrite <- replicate_add. f_equal. nia.
    + intros j Hj. destruct j as [| j]; [simpl; lia |].
      rewrite Nat.pow_succ_r'.
      specialize (Hmin j ltac:(lia)).
      rewrite length_ndarray_resize in Hmin. nia.
  - exists 0. simpl. rewrite Nat.add_0_r, Nat.sub_diag. simpl.
    rewrite app_nil_r. repeat split; try done; lia.
Qed.

(** What a call that returns has done. *)
Lemma set_vector_Returned fuel (i_vec : Z) (nd : ndarray) self self' :
  set_vector zero fuel i_vec nd self = Returned tt self' ->
  exists values start grown,
    nd = Nd1 values /\
    (0 <= i_vec < Z.of_nat (length (cum self)))%Z /\
    row_start self i_vec = Some start /\
    grow zero fuel (start + N.of_nat (length values)) (flat self) = Some grown /\
    self' = with_cum
              (with_flat self
                 (take (N.to_nat start) grown ++ values
                    ++ drop (N.to_nat start + length values) grown))
              (<[Z.to_nat i_vec := ((start + N.of_nat (length values)) mod 2 ^ 32)%N]>
                 (cum self)).
Proof.
  intros Hret.
  destruct (((i_vec <? 0) || (i_vec >? Z.of_nat (length (cum self)) - 1))%Z)
    eqn:Hrange; [unfold set_vector in Hret; by rewrite Hrange in Hret |].
  pose proof (proj1 (bad_i_vec_test _ _) Hrange) as Hi.
  destruct nd as [x | values | d0 d1 dims values];
    [unfold set_vector in Hret; by rewrite Hrange in Hret | |
     unfold set_vector in Hret; by rewrite Hrange in Hret].
  destruct (start_exists i_vec self Hi) as [start Hstart].
  destruct (grow zero fuel (start + N.of_nat (length values)) (flat self))
    as [grown |] eqn:Hgrow.
  - rewrite (set_vector_ok zero _ _ _ _ _ _ Hi Hstart Hgrow) in Hret.
    injection Hret as <-. by exists values, start, grown.
  - unfold set_vector in Hret. rewrite Hrange in Hret.
    cbn [shape length Nat.eqb negb] in Hret. rewrite Hstart in Hret.
    cbn [len shape head] in Hret. by rewrite Hgrow in Hret.
Qed.

(** A call of [set_vector] that returns has written the row at its
    [start] and stored the wrapped [end] at [i_vec]; the number of rows,
    every other offset, every buffer element outside the row, the cursor
    and the element type are as before. *)
Theorem set_vector_frame fuel (i_vec : Z) (nd : ndarray) self self' :
  set_vector zero fuel i_vec nd self = Returned tt self' ->
  exists (start : N) values,
    nd = Nd1 values /\ row_start self i_vec = Some start /\
    vov_len self' = vov_len self /\
    cum self' !! Z.to_nat i_vec
    = Some ((start + N.of_nat (length values)) mod 2 ^ 32)%N /\
    (forall j, j <> Z.to_nat i_vec -> cum self' !! j = cum self !! j) /\
    (forall p, p < length values -> flat self' !! (N.to_nat start + p) = values !! p) /\
    (forall p, p < length (flat self) ->
       p < N.to_nat start \/ N.to_nat start + length values <= p ->
       flat self' !! p = flat self !! p) /\
    index self' = index self /\ dtype self' = dtype self.
Proof.
  intros Hret.
  destruct (set_vector_Returned _ _ _ _ _ Hret)
    as (values & start & grown & -> & Hi & Hstart & Hgrow & ->).
  destruct (grow_Some _ _ _ _ _ Hgrow) as (Hend & _ & Hpre).
  exists start, values. split; [done |]. split; [done |].
  split; [apply length_insert |].
  split; [apply list_lookup_insert_eq; lia |].
  split; [intros j Hj; by apply list_lookup_insert_ne |].
  split; [| split; [| done]].
  - intros p Hp. cbn.
    rewrite (lookup_written _ _ _ (N.to_nat start + length values)) by lia.
    rewrite decide_False by lia. rewrite decide_True by lia. f_equal. lia.
  - intros p Hp Hout. cbn.
    rewrite (lookup_written _ _ _ (N.to_nat start + length values)) by lia.
    assert (grown !! p = flat self !! p) as Hsame.
    { rewrite <- Hpre at 1. symmetry. by apply lookup_take_lt. }
    repeat case_decide; try done; lia.
Qed.

(** A call of [set_vector] that returns leaves a flattened buffer whose
    capacity is the old one doubled [k] times and is above [end]; [k] is
    the least such number counting from the test [end >= capacity], and
    the places gained outside the row hold zeros. *)
Theorem set_vector_capacity fuel (i_vec : Z) (nd : ndarray) self self' :
  set_vector zero fuel i_vec nd self = Returned tt self' ->
  exists (start : N) values k,
    nd = Nd1 values /\ row_start self i_vec = Some start /\
    length (flat self') = 2 ^ k * length (flat self) /\
    N.to_nat start + length values < length (flat self') /\
    (forall j, j < k -> 2 ^ j * length (flat self) <= N.to_nat start + length values) /\
    (forall p, length (flat self) <= p < length (flat self') ->
       p < N.to_nat start \/ N.to_nat start + length values <= p ->
       flat self' !! p = Some zero).
Proof.
  intros Hret.
  destruct (set_vector_Returned _ _ _ _ _ Hret)
    as (values & start & grown & -> & Hi & Hstart & Hgrow & ->).
  destruct (grow_minimal _ _ _ _ Hgrow) as (k & _ & Hlen & Hpad & Hend & Hmin).
  assert (length (take (N.to_nat start) grown ++ values
                    ++ drop (N.to_nat start + length values) grown)
          = length grown) as Hsame.
  { rewrite !length_app, length_take, length_drop. lia. }
  exists start, values, k. split; [done |]. split; [done |].
  split; [cbn; by rewrite Hsame |].
  split; [cbn; rewrite Hsame; lia |].
  split; [intros j Hj; specialize (Hmin j Hj); lia |].
  intros p Hp Hout. cbn in *. rewrite Hsame in Hp.
  rewrite (lookup_written _ _ _ (N.to_nat start + length values)) by lia.
  assert (grown !! p = Some zero) as Hz.
  { rewrite Hpad. rewrite lookup_app_r by lia.
    apply lookup_replicate_2. lia. }
  repeat case_decide; try done; lia.
Qed.

(** With a flattened buffer that is not empty, [set_vector] comes to an
    end for every index and every array: it returns or raises once the
    fuel covers the doublings. *)
Theorem set_vector_terminates (i_vec : Z) (nd : ndarray) self :
  flat self <> [] ->
  exists fuel0, forall fuel, fuel0 <= fuel ->
    final_state (set_vector zero fuel i_vec nd self) <> None.
Proof.
  intros Hne.
  destruct (((i_vec <? 0) || (i_vec >? Z.of_nat (length (cum self)) - 1))%Z)
    eqn:Hrange.
  { exists 0. intros fuel _. unfold set_vector. by rewrite Hrange. }
  pose proof (proj1 (bad_i_vec_test _ _) Hrange) as Hi.
  destruct nd as [x | values | d0 d1 dims values];
    [exists 0; intros fuel _; unfold set_vector; by rewrite Hrange | |
     exists 0; intros fuel _; unfold set_vector; by rewrite Hrange].
  destruct (start_exists i_vec self Hi) as [start Hstart].
  destruct (grow_enough zero (start + N.of_nat (length values)) (flat self) Hne)
    as [grown Hgrown].
  exists (N.to_nat (start + N.of_nat (length values)) + 1).
  intros fuel Hfuel.
  rewrite (set_vector_ok zero _ _ _ _ _ grown Hi Hstart); [done |].
  apply Hgrown. lia.
Qed.

End SetVectorMore.

Lemma set_vector_frame_witness :
  let written :=
    mkVoV (mkArray [1; 2; 3; 4; 0; 0; 0; 0]%Z "int64") (mkArray [4; 0]%N "uint32")
          "int64" None in
  set_vector 0%Z 5 0 (Nd1 [1; 2; 3; 4]%Z) store_of_four = Returned tt written /\
  vov_len written = vov_len store_of_four /\
  cum written !! 1 = cum store_of_four !! 1.
Proof.
  intros written.
  assert (set_vector 0%Z 5 0 (Nd1 [1; 2; 3; 4]%Z) store_of_four = Returned tt written)
    as Hret by reflexivity.
  split; [exact Hret |].
  destruct (set_vector_frame 0%Z 5 0 _ _ _ Hret)
    as (start & values & _ & _ & Hlen & _ & Hcum & _).
  split; [exact Hlen |]. apply Hcum. simpl. lia.
Defined.

Lemma set_vector_capacity_witness :
  let written :=
    mkVoV (mkArray [1; 2; 3; 4; 0; 0; 0; 0]%Z "int64") (mkArray [4; 0]%N "uint32")
          "int64" None in
  set_vector 0%Z 5 0 (Nd1 [1; 2; 3; 4]%Z) store_of_four = Returned tt written /\
  exists k, length (flat written) = 2 ^ k * length (flat store_of_four).
Proof.
  intros written.
  assert (set_vector 0%Z 5 0 (Nd1 [1; 2; 3; 4]%Z) store_of_four = Returned tt written)
    as Hret by reflexivity.
  split; [exact Hret |].
  destruct (set_vector_capacity 0%Z 5 0 _ _ _ Hret)
    as (start & values & k & _ & _ & Hlen & _).
  by exists k.
Defined.

Lemma set_vector_terminates_witness :
  flat store_of_four <> [] /\
  exists fuel0, forall fuel, fuel0 <= fuel ->
    final_state (set_vector 0%Z fuel 1 (Nd1 [7; 8; 9]%Z) store_of_four) <> None.
Proof.
  assert (flat store_of_four <> []) as Hne by discriminate.
  split; [exact Hne |].
  exact (set_vector_terminates 0%Z 1 (Nd1 [7; 8; 9]%Z) store_of_four Hne).
Defined.

(** With an empty flattened buffer, a call of [set_vector] that passes
    both checks never leaves the doubling loop, whatever the row. *)
Theorem set_vector_empty_buffer_loops {A : Type} (zero : A) (fuel : nat) (i_vec : Z)
    (values : list A) (self : VectorOfVectors (A:=A)) :
  (0 <= i_vec < Z.of_nat (length (cum self)))%Z ->
  flat self = [] ->
  set_vector zero fuel i_vec (Nd1 values) self = OutOfFuel.
Proof.
  intros Hi Hflat. destruct (start_exists i_vec self Hi) as [start Hstart].
  unfold set_vector. apply bad_i_vec_test in Hi. rewrite Hi.
  cbn [shape length Nat.eqb negb]. rewrite Hstart. cbn [len shape head].
  by rewrite Hflat, grow_empty.
Qed.

Lemma set_vector_empty_buffer_loops_witness :
  (0 <= 1 < Z.of_nat (length (cum store_of_none)))%Z /\
  flat store_of_none = [] /\
  set_vector 0%Z 1000 1 (Nd1 []) store_of_none = OutOfFuel.
Proof.
  assert (0 <= 1 < Z.of_nat (length (cum store_of_none)))%Z as Hi by (simpl; lia).
  split; [exact Hi |]. split; [reflexivity |].
  exact (set_vector_empty_buffer_loops 0%Z 1000 1 [] store_of_none Hi eq_refl).
Defined.

(** ** Iteration and indexing *)

Section Iteration.
Context {A : Type}.
Implicit Types (self : VectorOfVectors (A:=A)).

(** [list(self)] for any store: the stored rows of all indices, in
    order, with the cursor left at the number of rows. *)
Lemma to_list_all self fuel :
  vov_len self < fuel ->
  to_list fuel self
  = Returned (stored_rows self 0 (vov_len self))
             (with_index self (Some (vov_len self))).
Proof.
  intros Hfuel. unfold to_list.
  by rewrite (exhaust_from (vov_len self) 0 (iter self) fuel).
Qed.

Lemma lookup_stored_rows self n i :
  i < n -> i < vov_len self ->
  exists row, stored_row self i = Some row /\ stored_rows self 0 n !! i = Some row.
Proof.
  intros Hn Hi. destruct (stored_row_in self i Hi) as [row Hrow].
  exists row. split; [done |]. unfold stored_rows.
  rewrite list_lookup_fmap, lookup_seq_lt by done. cbn. by rewrite Hrow.
Qed.

Lemma next_exhausted self i :
  index self = Some i -> vov_len self <= i -> next self = Raised StopIteration self.
Proof.
  intros Hidx Hi. unfold next. rewrite Hidx. by rewrite stored_row_out.
Qed.

Lemma list_getitem_nonneg {T : Type} (l : list T) (i : Z) :
  (0 <= i)%Z -> list_getitem l i = l !! Z.to_nat i.
Proof.
  intros Hi. unfold list_getitem. by destruct (Z.leb_spec 0 i); [| lia].
Qed.

Lemma list_getitem_neg {T : Type} (l : list T) (i : Z) :
  (- Z.of_nat (length l) <= i < 0)%Z ->
  list_getitem l i = l !! Z.to_nat (Z.of_nat (length l) + i).
Proof.
  intros Hi. unfold list_getitem.
  destruct (Z.leb_spec 0 i); [lia |].
  by destruct (Z.leb_spec (- Z.of_nat (length l)) i); [| lia].
Qed.

Lemma list_getitem_outside {T : Type} (l : list T) (i : Z) :
  (i < - Z.of_nat (length l) \/ Z.of_nat (length l) <= i)%Z ->
  list_getitem l i = None.
Proof.
  intros Hi. unfold list_getitem.
  destruct (Z.leb_spec 0 i).
  - apply lookup_ge_None_2. lia.
  - by destruct (Z.leb_spec (- Z.of_nat (length l)) i); [lia |].
Qed.

Lemma length_stored_rows self i n : length (stored_rows self i n) = n.
Proof. unfold stored_rows. by rewrite length_fmap, length_seq. Qed.

(** Whatever the store holds, [list(self)] ends and returns exactly
    [len(self)] rows; row [i] is the slice of the flattened buffer between
    the bounds read for [i], and the cursor is left at [len(self)]. *)
Theorem to_list_rows self fuel :
  vov_len self < fuel ->
  exists out,
    to_list fuel self = Returned out (with_index self (Some (vov_len self))) /\
    length out = vov_len self /\
    forall i, i < vov_len self ->
      exists start end_,
        row_bounds self i = Some (start, end_) /\
        out !! i = Some (getslice (flat self) start end_).
Proof.
  intros Hfuel. exists (stored_rows self 0 (vov_len self)).
  split; [by apply to_list_all |]. split; [apply length_stored_rows |].
  intros i Hi. destruct (lookup_stored_rows self (vov_len self) i Hi Hi)
    as (row & Hrow & Hout).
  unfold stored_row in Hrow.
  destruct (row_bounds self i) as [[start end_] |]; [| done].
  exists start, end_. split; [done |]. cbn in Hrow. by simplify_eq.
Qed.

(** Iteration can be restarted: a second [list(self)] returns the same
    rows as the first and leaves the store as the first left it; neither
    touches the buffer or the offsets. *)
Theorem to_list_twice self fuel :
  vov_len self < fuel ->
  exists out final,
    to_list fuel self = Returned out final /\
    to_list fuel final = Returned out final /\
    flat final = flat self /\ cum final = cum self.
Proof.
  intros Hfuel.
  exists (stored_rows self 0 (vov_len self)), (with_index self (Some (vov_len self))).
  split; [by apply to_list_all |]. split; [| done].
  by rewrite (to_list_all (with_index self (Some (vov_len self))) fuel).
Qed.

(** Once [list(self)] has run, the iterator stays exhausted: every
    further [__next__] raises [StopIteration] and changes nothing, until
    [__iter__] is called again. *)
Theorem exhausted_iterator_stays self fuel :
  vov_len self < fuel ->
  exists out final,
    to_list fuel self = Returned out final /\
    next final = Raised StopIteration final /\
    (forall fuel', 0 < fuel' -> exhaust fuel' final = Returned [] final).
Proof.
  intros Hfuel.
  exists (stored_rows self 0 (vov_len self)), (with_index self (Some (vov_len self))).
  assert (next (with_index self (Some (vov_len self)))
          = Raised StopIteration (with_index self (Some (vov_len self)))) as Hnext
    by (by apply (next_exhausted _ (vov_len self))).
  split; [by apply to_list_all |]. split; [done |].
  intros fuel' Hpos. destruct fuel' as [| fuel']; [lia |].
  cbn [exhaust]. by rewrite Hnext.
Qed.

(** [self[i]] for an index within [-len(self) .. len(self) - 1] is the
    stored row of that index, counted from the end when [i] is negative. *)
Theorem getitem_in_range self fuel (i : Z) :
  vov_len self < fuel ->
  (- Z.of_nat (vov_len self) <= i < Z.of_nat (vov_len self))%Z ->
  exists row,
    stored_row self (Z.to_nat (if (0 <=? i)%Z then i else Z.of_nat (vov_len self) + i)%Z)
    = Some row /\
    getitem fuel i self = Returned row (with_index self (Some (vov_len self))).
Proof.
  intros Hfuel Hi. unfold getitem. rewrite to_list_all by done.
  set (k := Z.to_nat (if (0 <=? i)%Z then i else Z.of_nat (vov_len self) + i)%Z).
  assert (k < vov_len self) as Hk by (unfold k; destruct (Z.leb_spec 0 i); lia).
  destruct (lookup_stored_rows self (vov_len self) k Hk Hk) as (row & Hrow & Hout).
  exists row. split; [done |].
  assert (list_getitem (stored_rows self 0 (vov_len self)) i = Some row) as ->; [| done].
  rewrite <- Hout. unfold k. destruct (Z.leb_spec 0 i).
  - by apply list_getitem_nonneg.
  - rewrite list_getitem_neg by (rewrite length_stored_rows; lia).
    by rewrite length_stored_rows.
Qed.

(** [self[i]] for any other index raises [IndexError]. *)
Theorem getitem_out_of_range self fuel (i : Z) :
  vov_len self < fuel ->
  (i < - Z.of_nat (vov_len self) \/ Z.of_nat (vov_len self) <= i)%Z ->
  getitem fuel i self = Raised IndexError (with_index self (Some (vov_len self))).
Proof.
  intros Hfuel Hi. unfold getitem. rewrite to_list_all by done.
  by rewrite list_getitem_outside by (rewrite length_stored_rows; lia).
Qed.

(** Indexing runs the object's own iterator to its end: whatever the
    index, and wherever an iteration in progress had got to, after
    [self[i]] the cursor is at [len(self)] and the next [__next__] raises
    [StopIteration]. *)
Theorem getitem_ends_iteration self fuel (i : Z) :
  vov_len self < fuel ->
  exists final,
    final_state (getitem fuel i self) = Some final /\
    index final = Some (vov_len self) /\
    flat final = flat self /\ cum final = cum self /\
    next final = Raised StopIteration final.
Proof.
  intros Hfuel. exists (with_index self (Some (vov_len self))).
  split; [| split; [done | split; [done | split; [done |]]]].
  - unfold getitem. rewrite to_list_all by done.
    by destruct (list_getitem _ i).
  - by apply (next_exhausted _ (vov_len self)).
Qed.

Lemma lookup_resize self n i :
  i < n -> i < vov_len self -> cum (resize n self) !! i = cum self !! i.
Proof.
  intros Hn Hi. cbn. unfold vov_len, cum in Hi.
  rewrite lookup_app_l by (rewrite length_take; lia).
  by apply lookup_take_lt.
Qed.

Lemma vov_len_resize self n : vov_len (resize n self) = n.
Proof.
  unfold vov_len. cbn. rewrite length_app, length_take, length_replicate.
  unfold cum. lia.
Qed.

(** After [resize(n)] the store has [n] rows: [list(self)] returns [n]
    rows, and each row below both the old and the new count is the row
    that was stored there before. *)
Theorem resize_then_list self (n : nat) fuel :
  n < fuel ->
  exists out final,
    to_list fuel (resize n self) = Returned out final /\
    length out = n /\
    forall i row, i < n -> stored_row self i = Some row -> out !! i = Some row.
Proof.
  intros Hfuel.
  exists (stored_rows (resize n self) 0 n), (with_index (resize n self) (Some n)).
  split; [| split; [apply length_stored_rows |]].
  - rewrite to_list_all by (by rewrite vov_len_resize).
    by rewrite vov_len_resize.
  - intros i row Hi Hrow.
    assert (i < vov_len self) as Hold.
    { destruct (decide (i < vov_len self)); [done |].
      rewrite stored_row_out in Hrow by (unfold vov_len in *; lia). done. }
    destruct (lookup_stored_rows (resize n self) n i Hi) as (row' & Hrow' & ->);
      [by rewrite vov_len_resize |].
    rewrite <- Hrow, <- Hrow'. unfold stored_row.
    assert (row_bounds (resize n self) i = row_bounds self i) as ->; [| done].
    unfold row_bounds. destruct (Nat.eqb_spec i 0) as [-> | Hnz].
    + by rewrite lookup_resize.
    + by rewrite !lookup_resize by lia.
Qed.

End Iteration.

Lemma to_list_rows_witness :
  vov_len small_store < 5 /\
  exists out,
    to_list 5 small_store = Returned out (with_index small_store (Some (vov_len small_store))) /\
    length out = vov_len small_store.
Proof.
  assert (vov_len small_store < 5) as H by (cbn; lia).
  split; [exact H |].
  destruct (to_list_rows small_store 5 H) as (out & Hrun & Hlen & _).
  exists out. split; [exact Hrun | exact Hlen].
Defined.

Lemma to_list_twice_witness :
  vov_len small_store < 5 /\
  exists out final,
    to_list 5 small_store = Returned out final /\
    to_list 5 final = Returned out final /\
    flat final = flat small_store /\ cum final = cum small_store.
Proof.
  assert (vov_len small_store < 5) as H by (cbn; lia).
  split; [exact H |]. exact (to_list_twice small_store 5 H).
Defined.

Lemma exhausted_iterator_stays_witness :
  vov_len small_store < 5 /\
  exists out final,
    to_list 5 small_store = Returned out final /\
    next final = Raised StopIteration final /\
    (forall fuel', 0 < fuel' -> exhaust fuel' final = Returned [] final).
Proof.
  assert (vov_len small_store < 5) as H by (cbn; lia).
  split; [exact H |]. exact (exhausted_iterator_stays small_store 5 H).
Defined.

Lemma getitem_in_range_witness :
  vov_len small_store < 5 /\
  (- Z.of_nat (vov_len small_store) <= -1 < Z.of_nat (vov_len small_store))%Z /\
  exists row,
    stored_row small_store 3 = Some row /\
    getitem 5 (-1) small_store
    = Returned row (with_index small_store (Some (vov_len small_store))).
Proof.
  assert (vov_len small_store < 5) as H by (cbn; lia).
  assert (- Z.of_nat (vov_len small_store) <= -1 < Z.of_nat (vov_len small_store))%Z
    as Hi by (cbn; lia).
  split; [exact H |]. split; [exact Hi |].
  exact (getitem_in_range small_store 5 (-1) H Hi).
Defined.

Lemma getitem_out_of_range_witness :
  vov_len small_store < 5 /\
  (4 < - Z.of_nat (vov_len small_store) \/ Z.of_nat (vov_len small_store) <= 4)%Z /\
  getitem 5 4 small_store
  = Raised IndexError (with_index small_store (Some (vov_len small_store))).
Proof.
  assert (vov_len small_store < 5) as H by (cbn; lia).
  assert (4 < - Z.of_nat (vov_len small_store) \/ Z.of_nat (vov_len small_store) <= 4)%Z
    as Hi by (right; cbn; lia).
  split; [exact H |]. split; [exact Hi |].
  exact (getitem_out_of_range small_store 5 4 H Hi).
Defined.

Lemma getitem_ends_iteration_witness :
  vov_len small_store < 5 /\
  exists final,
    final_state (getitem 5 0 (with_index small_store (Some 1))) = Some final /\
    index final = Some (vov_len small_store) /\
    next final = Raised StopIteration final.
Proof.
  assert (vov_len (with_index small_store (Some 1)) < 5) as H by (cbn; lia).
  split; [exact H |].
  destruct (getitem_ends_iteration (with_index small_store (Some 1)) 5 0 H)
    as (final & Hfin & Hidx & _ & _ & Hnext).
  exists final. split; [exact Hfin |]. split; [exact Hidx | exact Hnext].
Defined.

Lemma resize_then_list_witness :
  2 < 5 /\
  exists out final,
    to_list 5 (resize 2 small_store) = Returned out final /\
    length out = 2.
Proof.
  assert (2 < 5) as H by lia.
  split; [exact H |].
  destruct (resize_then_list small_store 2 5 H) as (out & final & Hrun & Hlen & _).
  exists out, final. split; [exact Hrun | exact Hlen].
Defined.

Section WriteThenRead.
Context {A : Type} (zero : A).
Implicit Types (r : list A) (self : VectorOfVectors (A:=A)).

(** A row written at any index of a store is the row read back at that
    index, by the iterator and by [self[i]]: the store need not have been
    filled in order, its buffer only has to be non-empty and the row's
    end has to fit a [uint32]. *)
Theorem set_vector_then_read (i : nat) (start : N) r self :
  i < vov_len self ->
  flat self <> [] ->
  row_start self (Z.of_nat i) = Some start ->
  (start + N.of_nat (length r) < 2 ^ 32)%N ->
  exists self',
    (forall fuel, N.to_nat start + length r < fuel ->
       set_vector zero fuel (Z.of_nat i) (Nd1 r) self = Returned tt self') /\
    vov_len self' = vov_len self /\
    stored_row self' i = Some r /\
    (forall fuel, vov_len self < fuel ->
       getitem fuel (Z.of_nat i) self'
       = Returned r (with_index self' (Some (vov_len self)))).
Proof.
  intros Hi Hne Hstart Hsmall. unfold vov_len in Hi.
  assert (0 < length (flat self)) as Hpos
    by (destruct (flat self); [done | simpl; lia]).
  destruct (grow_enough zero (start + N.of_nat (length r)) (flat self) Hne)
    as [grown Hgrown].
  assert (grow zero (N.to_nat start + length r) (start + N.of_nat (length r)) (flat self)
          = Some grown) as Hg by (apply Hgrown; lia).
  destruct (grow_Some _ _ _ _ _ Hg) as (Hend & _ & _).
  set (self' :=
         with_cum
           (with_flat self
              (take (N.to_nat start) grown ++ r
                 ++ drop (N.to_nat start + length r) grown))
           (<[Z.to_nat (Z.of_nat i) := ((start + N.of_nat (length r)) mod 2 ^ 32)%N]>
              (cum self))).
  assert (vov_len self' = vov_len self) as Hlen by apply length_insert.
  assert (stored_row self' i = Some r) as Hrow.
  { unfold stored_row, row_bounds.
    assert (cum self' !! i = Some (start + N.of_nat (length r))%N) as Hend'.
    { cbn. rewrite Nat2Z.id, N.mod_small by done.
      by apply list_lookup_insert_eq. }
    assert (getslice (flat self') start (start + N.of_nat (length r)) = r) as Hslice.
    { cbn. unfold getslice.
      replace (N.to_nat (start + N.of_nat (length r)) - N.to_nat start)
        with (length r) by lia.
      rewrite drop_app_length' by (rewrite length_take; lia).
      by rewrite take_app_length. }
    unfold row_start in Hstart.
    destruct (Nat.eqb_spec i 0) as [-> | Hnz].
    - rewrite Hend'. cbn [mbind option_bind fmap option_fmap option_map].
      cbn in Hstart. injection Hstart as <-. by rewrite Hslice.
    - destruct (Z.eqb_spec (Z.of_nat i) 0) as [? | _]; [lia |].
      replace (Z.to_nat (Z.of_nat i - 1)) with (i - 1) in Hstart by lia.
      assert (cum self' !! (i - 1) = Some start) as ->.
      { cbn. rewrite Nat2Z.id. rewrite list_lookup_insert_ne by lia. done. }
      rewrite Hend'. cbn [mbind option_bind fmap option_fmap option_map].
      by rewrite Hslice. }
  exists self'. split; [| split; [done | split; [done |]]].
  - intros fuel Hfuel. apply set_vector_ok; [lia | exact Hstart |].
    apply Hgrown. lia.
  - intros fuel Hfuel. unfold getitem.
    rewrite to_list_all by (rewrite Hlen; done). rewrite Hlen.
    rewrite list_getitem_nonneg by lia. rewrite Nat2Z.id.
    destruct (lookup_stored_rows self' (vov_len self) i) as (row & Hrow' & ->);
      [done | by rewrite Hlen |].
    rewrite Hrow in Hrow'. by injection Hrow' as <-.
Qed.

End WriteThenRead.

Lemma set_vector_then_read_witness :
  1 < vov_len small_store /\
  flat small_store <> [] /\
  row_start small_store 1 = Some 0%N /\
  (0 + N.of_nat (length [7; 8; 9]%Z) < 2 ^ 32)%N /\
  exists self',
    (forall fuel, 3 < fuel ->
       set_vector 0%Z fuel 1 (Nd1 [7; 8; 9]%Z) small_store = Returned tt self') /\
    stored_row self' 1 = Some [7; 8; 9]%Z.
Proof.
  assert (1 < vov_len small_store) as H1 by (cbn; lia).
  assert (flat small_store <> []) as H2 by discriminate.
  assert (row_start small_store (Z.of_nat 1) = Some 0%N) as H3 by reflexivity.
  assert (0 + N.of_nat (length [7; 8; 9]%Z) < 2 ^ 32)%N as H4 by reflexivity.
  split; [exact H1 |]. split; [exact H2 |]. split; [exact H3 |]. split; [exact H4 |].
  destruct (set_vector_then_read 0%Z 1 0%N [7; 8; 9]%Z small_store H1 H2 H3 H4)
    as (self' & Hrun & _ & Hrow & _).
  exists self'. split; [| exact Hrow].
  intros fuel Hfuel. apply Hrun. simpl. lia.
Defined.

Section Layout.
Context {A : Type} (zero : A) (uninitialised : nat -> A).
Implicit Types (rows : list (list A)) (self : VectorOfVectors (A:=A)).

(** Rows written in order from index 0 lie end to end at the start of
    the flattened buffer, and [cumulative_length] holds the running sums
    of their lengths: entry [j] is the number of elements of the rows
    0..j. *)
Theorem set_vectors_layout self rows :
  flat self <> [] ->
  length rows <= vov_len self ->
  (N.of_nat (length (concat rows)) < 2 ^ 32)%N ->
  exists written,
    (forall fuel, length (concat rows) < fuel ->
       set_vectors zero fuel 0 rows self = Returned tt written) /\
    vov_len written = vov_len self /\
    take (length (concat rows)) (flat written) = concat rows /\
    (forall j, j < length rows ->
       cum written !! j = Some (N.of_nat (length (concat (take (S j) rows))))).
Proof.
  intros Hne Hroom Hsmall.
  destruct (set_vectors_from zero rows 0 0 self) as
    (written & Hrun & Hlen & _ & Hcum & _ & Hflat & _);
    [done | simpl; unfold vov_len in Hroom; lia | done | lia | done |].
  exists written. split; [| split; [done | split]].
  - intros fuel Hfuel. apply (Hrun fuel). simpl. lia.
  - apply list_eq. intros p.
    destruct (concat rows !! p) as [x |] eqn:Hx.
    + rewrite lookup_take_lt by (by eapply lookup_lt_Some).
      by apply (Hflat p x).
    + apply lookup_take_ge. by apply lookup_ge_None.
  - intros j Hj. by apply (Hcum j).
Qed.

(** A store constructed from a shape guess and a dtype has a flattened
    buffer of [n0 * n1] elements and reads as [n0] empty rows. *)
Theorem fresh_store_rows (n0 n1 : nat) (dt : string) :
  exists v,
    init uninitialised None None (Some (n0, n1)) (Some dt) = inr v /\
    vov_len v = n0 /\
    length (flat v) = n0 * n1 /\
    forall fuel, n0 < fuel ->
      to_list fuel v = Returned (replicate n0 []) (with_index v (Some n0)).
Proof.
  eexists. split; [reflexivity |].
  split; [cbn; apply length_replicate |].
  split; [cbn; by rewrite length_fmap, length_seq |].
  intros fuel Hfuel.
  rewrite to_list_all by (unfold vov_len; cbn; by rewrite length_replicate).
  unfold vov_len. cbn [cum cumulative_length Array_new nda].
  rewrite length_replicate. f_equal.
  apply list_eq. intros i. unfold stored_rows.
  rewrite list_lookup_fmap.
  destruct (decide (i < n0)) as [Hi | Hi].
  - rewrite lookup_seq_lt, lookup_replicate_2 by done.
    cbn. f_equal. unfold stored_row, row_bounds. cbn.
    destruct (Nat.eqb_spec i 0) as [-> | Hnz].
    + by rewrite lookup_replicate_2 by lia.
    + by rewrite !lookup_replicate_2 by lia.
  - rewrite lookup_seq_ge by lia. symmetry. apply lookup_replicate_None. lia.
Qed.

(** A shape guess with a zero in it gives a store that cannot be
    written: its flattened buffer is empty, and [set_vector] with a valid
    index and a one-dimensional row never leaves its doubling loop. *)
Theorem fresh_store_zero_guess (n0 n1 : nat) (dt : string) (i_vec : Z)
    (values : list A) (fuel : nat) :
  n0 * n1 = 0 ->
  (0 <= i_vec < Z.of_nat n0)%Z ->
  exists v,
    init uninitialised None None (Some (n0, n1)) (Some dt) = inr v /\
    set_vector zero fuel i_vec (Nd1 values) v = OutOfFuel.
Proof.
  intros Hzero Hi. eexists. split; [reflexivity |].
  apply set_vector_empty_buffer.
  - cbn. by rewrite length_replicate.
  - cbn. rewrite Hzero. reflexivity.
Qed.

End Layout.

Lemma set_vectors_layout_witness :
  let rows := [[1; 2; 3]; []; [4; 5; 6; 7; 8]]%Z in
  flat small_store <> [] /\
  length rows <= vov_len small_store /\
  (N.of_nat (length (concat rows)) < 2 ^ 32)%N /\
  exists written,
    (forall fuel, length (concat rows) < fuel ->
       set_vectors 0%Z fuel 0 rows small_store = Returned tt written) /\
    take (length (concat rows)) (flat written) = concat rows.
Proof.
  intros rows.
  assert (flat small_store <> []) as H1 by discriminate.
  assert (length rows <= vov_len small_store) as H2 by (cbn; lia).
  assert (N.of_nat (length (concat rows)) < 2 ^ 32)%N as H3 by reflexivity.
  split; [exact H1 |]. split; [exact H2 |]. split; [exact H3 |].
  destruct (set_vectors_layout 0%Z small_store rows H1 H2 H3)
    as (written & Hrun & _ & Hflat & _).
  exists written. split; [exact Hrun | exact Hflat].
Defined.

Lemma fresh_store_zero_guess_witness :
  4 * 0 = 0 /\ (0 <= 2 < Z.of_nat 4)%Z /\
  exists v,
    init (fun _ => 0%Z) None None (Some (4, 0)) (Some "int64"%string) = inr v /\
    set_vector 0%Z 50 2 (Nd1 [1; 2]%Z) v = OutOfFuel.
Proof.
  assert (4 * 0 = 0) as H1 by reflexivity.
  assert (0 <= 2 < Z.of_nat 4)%Z as H2 by lia.
  split; [exact H1 |]. split; [exact H2 |].
  exact (fresh_store_zero_guess 0%Z (fun _ => 0%Z) 4 0 "int64" 2 [1; 2]%Z 50 H1 H2).
Defined.

Lemma fresh_store_rows_witness :
  exists v,
    init (fun _ => 0%Z) None None (Some (3, 2)) (Some "int64"%string) = inr v /\
    vov_len v = 3 /\
    to_list 5 v = Returned (replicate 3 []) (with_index v (Some 3)).
Proof.
  destruct (fresh_store_rows (fun _ => 0%Z) 3 2 "int64") as (v & Hinit & Hlen & _ & Hrun).
  exists v. split; [exact Hinit |]. split; [exact Hlen |]. apply Hrun. lia.
Defined.

End VoVProps.

(** * Properties of the data streamer *)
Module StreamerProps.
Import Streamer.

Section Loop.
Context {Src : Type}.
Variable read_packet : DataStreamer Src -> bool * DataStreamer Src.
Implicit Types (self : DataStreamer Src) (mode : option string).

Lemma after_calls_S (k : nat) self :
  after_calls read_packet (S k) self
  = after_calls read_packet k (snd (read_packet self)).
Proof.
  unfold after_calls.
  exact (Nat.iter_succ_r k (fun s => snd (read_packet s)) self).
Qed.

Lemma still_has_data_S (k : nat) self :
  (1 <= k)%nat ->
  still_has_data read_packet (S k) self
  = still_has_data read_packet k (snd (read_packet self)).
Proof.
  intros Hk. unfold still_has_data.
  replace (S k - 1)%nat with (S (k - 1)) by lia.
  by rewrite after_calls_S.
Qed.

Lemma design_stop_S mode (k : nat) self :
  (1 <= k)%nat ->
  design_stop read_packet mode (S k) self
  = design_stop read_packet mode k (snd (read_packet self)).
Proof.
  intros Hk. unfold design_stop.
  by rewrite still_has_data_S, after_calls_S.
Qed.

(** The first call, when the loop is not left after it. *)
Lemma design_stop_1_false mode self :
  design_stop read_packet mode 1 self = false ->
  fst (read_packet self) = true /\
  bool_decide (mode = Some "single_packet"%string) = false /\
  any_full (snd (read_packet self)) = false.
Proof.
  unfold design_stop, still_has_data. cbn.
  rewrite !orb_false_iff, negb_false_iff. tauto.
Qed.

(** Below the cap, the loop runs on while no call gives a reason to
    leave it. *)
Lemma read_loop_running mode (rp_max : Z) (m : nat) : forall (n : Z) self,
  n + Z.of_nat m <= rp_max ->
  (forall k, 1 <= k <= m -> design_stop read_packet mode k self = false)%nat ->
  read_loop read_packet m (bool_decide (mode = Some "single_packet"%string))
            rp_max n self = None.
Proof.
  induction m as [| m IH]; intros n self Hcap Hno; [done |].
  destruct (design_stop_1_false mode self) as (Hstill & Hone & Hfull);
    [apply Hno; lia |].
  cbn [read_loop]. destruct (read_packet self) as [still self1] eqn:Hrp.
  cbn in Hstill, Hfull. subst still. cbn [negb]. rewrite Hone at 1. rewrite Hfull.
  destruct (Z.gtb_spec (n + 1) rp_max) as [Hgt | Hle]; [lia |]. cbn [orb].
  apply IH; [lia |].
  intros k Hk. rewrite <- (Hno (S k)) by lia.
  rewrite design_stop_S by lia. by rewrite Hrp.
Qed.

(** Below the cap, the loop is left right after the first call that gives
    a reason to. *)
Lemma read_loop_stops mode (rp_max : Z) (m : nat) : forall (fuel : nat) (n : Z) self,
  (1 <= m <= fuel)%nat ->
  n + Z.of_nat m <= rp_max ->
  (forall k, 1 <= k < m -> design_stop read_packet mode k self = false)%nat ->
  design_stop read_packet mode m self = true ->
  read_loop read_packet fuel (bool_decide (mode = Some "single_packet"%string))
            rp_max n self
  = Some (n + packets_read read_packet m self, after_calls read_packet m self).
Proof.
  induction m as [| m IH]; intros fuel n self Hm Hcap Hno Hstop; [lia |].
  destruct fuel as [| fuel]; [lia |].
  destruct (decide (m = 0%nat)) as [-> | Hpos].
  - (* the first call ends the loop *)
    clear IH Hno. unfold packets_read.
    unfold design_stop, still_has_data in *. cbn in *.
    destruct (read_packet self) as [still self1] eqn:Hrp. cbn in *.
    destruct still; cbn in *; [| f_equal; f_equal; lia].
    destruct (bool_decide (mode = Some "single_packet"%string)); cbn in *; [done |].
    destruct (Z.gtb_spec (n + 1) rp_max); [done |]. by rewrite Hstop.
  - destruct (design_stop_1_false mode self) as (Hstill & Hone & Hfull);
      [apply Hno; lia |].
    cbn [read_loop]. destruct (read_packet self) as [still self1] eqn:Hrp.
    cbn in Hstill, Hfull. subst still. cbn [negb]. rewrite Hone at 1. rewrite Hfull.
    destruct (Z.gtb_spec (n + 1) rp_max) as [Hgt | Hle]; [lia |]. cbn [orb].
    rewrite (IH fuel (n + 1) self1); [| lia | lia | |].
    + f_equal. rewrite after_calls_S, Hrp. cbn [snd]. f_equal.
      unfold packets_read. rewrite still_has_data_S by lia. rewrite Hrp. cbn [snd].
      destruct (still_has_data read_packet m self1); lia.
    + intros k Hk. rewrite <- (Hno (S k)) by lia.
      rewrite design_stop_S by lia. by rewrite Hrp.
    + rewrite <- Hstop. rewrite design_stop_S by lia. by rewrite Hrp.
Qed.

(** [read_chunk] leaves the engine as its packet loop leaves it. *)
Lemma read_chunk_final_state fuel (P : option string) rp_max self :
  final_state (read_chunk read_packet fuel P rp_max self)
  = snd <$> read_loop read_packet fuel
              (bool_decide (effective_mode P self = Some "single_packet"%string))
              rp_max 0 self.
Proof.
  unfold read_chunk.
  destruct (read_loop _ _ _ _ _ _) as [[n self1] |]; [| done].
  cbn. by destruct (rb_lib self1).
Qed.

(** C2, amended: with [m] calls of [read_packet] within the cap
    ([m <= rp_max]), when the [m]-th call is the first to report the end of
    the data or to read a packet with the mode in force being
    [single_packet] or with the [any_full] flag up (under any mode),
    [read_chunk] ends its loop right after that call; and when no call up
    to the [m]-th does so and [m] is below the cap, the loop goes on to
    another call. The mode in force is the override, or the engine's own
    mode when the override is [None]. *)
Theorem read_chunk_loop_stops (P : option string) (rp_max : Z) (self : DataStreamer Src)
    (m : nat) :
  (1 <= m)%nat ->
  Z.of_nat m <= rp_max ->
  (forall k, 1 <= k < m ->
     design_stop read_packet (effective_mode P self) k self = false)%nat ->
  (design_stop read_packet (effective_mode P self) m self = true ->
   forall fuel, (m <= fuel)%nat ->
     final_state (read_chunk read_packet fuel P rp_max self)
     = Some (after_calls read_packet m self)) /\
  (design_stop read_packet (effective_mode P self) m self = false ->
   Z.of_nat m < rp_max ->
   final_state (read_chunk read_packet m P rp_max self) = None).
Proof.
  intros Hm Hcap Hno. split.
  - intros Hstop fuel Hfuel. rewrite read_chunk_final_state.
    rewrite (read_loop_stops (effective_mode P self) rp_max m); try done; lia.
  - intros Hgo Hbelow. rewrite read_chunk_final_state.
    rewrite (read_loop_running (effective_mode P self) rp_max m); [done | lia |].
    intros k Hk. destruct (decide (k = m)) as [-> | Hne]; [done |].
    apply Hno. lia.
Qed.

End Loop.

Lemma read_chunk_loop_stops_witness :
  final_state (read_chunk filling_reader 5 (Some "only_full"%string) 10 engine0)
  = Some (after_calls filling_reader 1 engine0) /\
  final_state (read_chunk (tape_reader 7) 2 None 10 engine0) = None.
Proof.
  split.
  - apply (proj1 (read_chunk_loop_stops filling_reader (Some "only_full"%string)
                    10 engine0 1 (le_n 1) ltac:(lia) ltac:(intros k Hk; lia)));
      [reflexivity | lia].
  - apply (proj2 (read_chunk_loop_stops (tape_reader 7) None 10 engine0 2
                    ltac:(lia) ltac:(lia)
                    ltac:(intros k Hk; assert (k = 1%nat) as -> by lia; reflexivity)));
      [reflexivity | lia].
Defined.

(** C2, as the spec states it, fails: under the override [only_full] and the
    cap 10, with a source that has more data, none of the four conditions
    holds after any of the first nine calls (the tenth packet would be the
    first stop), yet the loop is left right after the first call, because
    that call raised the [any_full] flag. *)
Lemma read_chunk_only_full_counterexample :
  forallb (fun k => negb (claimed_stop filling_reader (Some "only_full"%string) 10 k engine0))
          (seq 1 9) = true /\
  claimed_stop filling_reader (Some "only_full"%string) 10 10 engine0 = true /\
  final_state (read_chunk filling_reader 20 (Some "only_full"%string) 10 engine0)
  = Some (after_calls filling_reader 1 engine0) /\
  source <$> final_state (read_chunk filling_reader 20 (Some "only_full"%string) 10 engine0)
  = Some 1%nat.
Proof. repeat split; vm_compute; reflexivity. Qed.

(** The cap on its own: with no other reason to stop and [rp_max = 3], the
    loop is left after the fourth packet. *)
Example read_chunk_cap_run :
  source <$> final_state (read_chunk (tape_reader 100) 20 None 3 engine0)
  = Some 4%nat.
Proof. vm_compute. reflexivity. Qed.

(** What [read_chunk] returns is never a pair. *)
Lemma read_chunk_never_pair {Src : Type}
    (read_packet : DataStreamer Src -> bool * DataStreamer Src)
    (fuel : nat) (P : option string) (rp_max : Z) (self self' : DataStreamer Src)
    (chunk_list : list RawBuffer) (n_bytes : Z) :
  read_chunk read_packet fuel P rp_max self <> Returned (ListAndBytes chunk_list n_bytes) self'.
Proof.
  unfold read_chunk.
  destruct (read_loop _ _ _ _ _ _) as [[n self1] |]; [| done].
  by destruct (rb_lib self1).
Qed.



(** With a wildcard entry whose first buffer has a string for [out_name],
    a decoder absent from the library gets a list of one new buffer under
    its class name; the stream name is formatted with that class name. *)
Lemma wildcard_setup_inserts
    (lib : gmap string (list RawBuffer)) (decoder : Decoder)
    (template : RawBuffer) (others : list RawBuffer) (name_template : string) :
  lib !! class_name decoder = None ->
  lib !! "*"%string = Some (template :: others) ->
  out_name template = PyStr name_template ->
  wildcard_setup lib decoder
  = inr (Some (<[class_name decoder :=
                  [mkRawBuffer None (format (out_stream template) (class_name decoder))
                               (PyDecoder decoder) 0]]> lib)).
Proof.
  intros Hd Hw Hn. unfold wildcard_setup. rewrite Hd, Hw.
  cbn [lookup list_lookup]. by rewrite Hn.
Qed.

(** Without a wildcard entry a decoder absent from the library is skipped:
    the library is left as it was. *)
Lemma wildcard_setup_skips
    (lib : gmap string (list RawBuffer)) (decoder : Decoder) :
  lib !! class_name decoder = None -> lib !! "*"%string = None ->
  wildcard_setup lib decoder = inr None.
Proof. intros Hd Hw. unfold wildcard_setup. by rewrite Hd, Hw. Qed.


(** ** Further properties of [read_chunk] *)

Section LoopMore.
Context {Src : Type}.
Variable read_packet : DataStreamer Src -> bool * DataStreamer Src.
Implicit Types (self : DataStreamer Src) (mode : option string).

(** The cap ends the loop: from [n_packets = n] it makes at most
    [rp_max - n + 1] calls, and at least one. *)
Lemma read_loop_bounded (r : bool) (rp_max : Z) (fuel : nat) : forall (n : Z) self,
  (Z.to_nat (rp_max - n) < fuel)%nat ->
  exists (m : nat) (res : Z),
    (1 <= m <= Z.to_nat (rp_max - n) + 1)%nat /\
    read_loop read_packet fuel r rp_max n self
    = Some (res, after_calls read_packet m self).
Proof.
  induction fuel as [| fuel IH]; intros n self Hfuel; [lia |].
  cbn [read_loop]. destruct (read_packet self) as [still self1] eqn:Hrp.
  assert (after_calls read_packet 1 self = self1) as H1
    by (unfold after_calls; cbn; by rewrite Hrp).
  destruct still; cbn [negb]; [| exists 1%nat, n; split; [lia | by rewrite H1]].
  destruct (r || (n + 1 >? rp_max)) eqn:Hcap;
    [exists 1%nat, (n + 1); split; [lia | by rewrite H1] |].
  destruct (any_full self1);
    [exists 1%nat, (n + 1); split; [lia | by rewrite H1] |].
  apply orb_false_iff in Hcap as [_ Hcap]. rewrite Z.gtb_ltb in Hcap.
  apply Z.ltb_ge in Hcap.
  destruct (IH (n + 1) self1) as (m & res & Hm & Hrun); [lia |].
  exists (S m), res. split; [lia |].
  rewrite Hrun. by rewrite after_calls_S, Hrp.
Qed.

(** With nothing else to stop it, the loop is left by the cap, right
    after the call that brings [n_packets] above [rp_max]. *)
Lemma read_loop_cap mode (rp_max : Z) (m : nat) : forall (fuel : nat) (n : Z) self,
  (1 <= m <= fuel)%nat ->
  n + Z.of_nat m = rp_max + 1 ->
  (forall k, 1 <= k < m -> design_stop read_packet mode k self = false)%nat ->
  exists res,
    read_loop read_packet fuel (bool_decide (mode = Some "single_packet"%string))
              rp_max n self
    = Some (res, after_calls read_packet m self).
Proof.
  induction m as [| m IH]; intros fuel n self Hm Hcap Hno; [lia |].
  destruct fuel as [| fuel]; [lia |].
  destruct (decide (m = 0%nat)) as [-> | Hpos].
  - cbn [read_loop]. destruct (read_packet self) as [still self1] eqn:Hrp.
    assert (after_calls read_packet 1 self = self1) as H1
      by (unfold after_calls; cbn; by rewrite Hrp).
    rewrite H1. destruct still; cbn [negb]; [| by eexists].
    destruct (Z.gtb_spec (n + 1) rp_max); [| lia].
    rewrite orb_true_r. by eexists.
  - destruct (design_stop_1_false read_packet mode self) as (Hstill & Hone & Hfull);
      [apply Hno; lia |].
    destruct (IH fuel (n + 1) (snd (read_packet self))) as [res Hrun]; [lia | lia | |].
    { intros k Hk. rewrite <- (Hno (S k)) by lia. by rewrite design_stop_S by lia. }
    exists res. rewrite after_calls_S, <- Hrun.
    cbn [read_loop]. destruct (read_packet self) as [still self1] eqn:Hrp.
    cbn in Hstill, Hfull. subst still. cbn [negb snd]. rewrite Hone at 1. rewrite Hfull.
    destruct (Z.gtb_spec (n + 1) rp_max) as [Hgt | Hle]; [lia |]. done.
Qed.

(** [read_chunk] always ends: whatever [read_packet] does, the loop
    makes at least one call and at most [rp_max + 1] calls (one call when
    [rp_max] is negative), and the engine is left as those calls leave
    it. *)
Theorem read_chunk_bounded (P : option string) (rp_max : Z) (self : DataStreamer Src)
    (fuel : nat) :
  (Z.to_nat rp_max < fuel)%nat ->
  exists m : nat,
    (1 <= m <= Z.to_nat rp_max + 1)%nat /\
    final_state (read_chunk read_packet fuel P rp_max self)
    = Some (after_calls read_packet m self).
Proof.
  intros Hfuel. rewrite read_chunk_final_state.
  destruct (read_loop_bounded
              (bool_decide (effective_mode P self = Some "single_packet"%string))
              rp_max fuel 0 self) as (m & res & Hm & Hrun).
  { by rewrite Z.sub_0_r. }
  rewrite Z.sub_0_r in Hm. exists m. split; [done |]. by rewrite Hrun.
Qed.

(** The cap as the code applies it: when no call among the first
    [rp_max] reports the end of the data, works in [single_packet] mode or
    leaves the [any_full] flag up, the loop is left right after call
    [rp_max + 1]. *)
Theorem read_chunk_cap (P : option string) (rp_max : Z) (self : DataStreamer Src)
    (fuel : nat) :
  0 <= rp_max ->
  (Z.to_nat rp_max < fuel)%nat ->
  (forall k, 1 <= k <= Z.to_nat rp_max ->
     design_stop read_packet (effective_mode P self) k self = false)%nat ->
  final_state (read_chunk read_packet fuel P rp_max self)
  = Some (after_calls read_packet (Z.to_nat rp_max + 1) self).
Proof.
  intros Hpos Hfuel Hno. rewrite read_chunk_final_state.
  destruct (read_loop_cap (effective_mode P self) rp_max (Z.to_nat rp_max + 1)
              fuel 0 self) as [res Hrun]; [lia | lia | |].
  { intros k Hk. apply Hno. lia. }
  by rewrite Hrun.
Qed.

(** One call and no more: [read_chunk] stops after its first call of
    [read_packet] exactly when that call reports the end of the data, or
    the mode in force is [single_packet], or the [any_full] flag is up
    after it, or [rp_max] is not positive; otherwise it makes a second
    call. *)
Theorem read_chunk_one_call (P : option string) (rp_max : Z) (self : DataStreamer Src) :
  (design_stop read_packet (effective_mode P self) 1 self = true \/ rp_max <= 0 ->
   forall fuel, (1 <= fuel)%nat ->
     final_state (read_chunk read_packet fuel P rp_max self)
     = Some (snd (read_packet self))) /\
  (design_stop read_packet (effective_mode P self) 1 self = false -> 0 < rp_max ->
   final_state (read_chunk read_packet 1 P rp_max self) = None).
Proof.
  split.
  - intros Hstop fuel Hfuel. rewrite read_chunk_final_state.
    destruct fuel as [| fuel]; [lia |]. cbn [read_loop].
    unfold design_stop, still_has_data in Hstop. cbn in Hstop.
    destruct (read_packet self) as [still self1] eqn:Hrp. cbn [fst snd] in *.
    destruct still; cbn [negb] in *; [| done].
    destruct (bool_decide (effective_mode P self = Some "single_packet"%string));
      [done |].
    destruct (Z.gtb_spec (0 + 1) rp_max) as [Hgt | Hle]; [done |]. cbn [orb] in *.
    destruct Hstop as [Hstop | Hstop]; [| lia]. by rewrite Hstop.
  - intros Hgo Hpos. rewrite read_chunk_final_state.
    rewrite (read_loop_running read_packet (effective_mode P self) rp_max 1);
      [done | lia |].
    intros k Hk. by assert (k = 1%nat) as -> by lia.
Qed.

(** Calling [read_chunk] on an engine that has no library, with a
    [read_packet] that does not supply one, raises [AttributeError], but
    only after the packet loop has run: the packets it read are consumed. *)
Theorem read_chunk_without_library (P : option string) (rp_max : Z)
    (self : DataStreamer Src) (fuel : nat) :
  (forall s, rb_lib (snd (read_packet s)) = rb_lib s) ->
  rb_lib self = None ->
  (Z.to_nat rp_max < fuel)%nat ->
  exists m : nat,
    (1 <= m)%nat /\
    read_chunk read_packet fuel P rp_max self
    = Raised AttributeError (after_calls read_packet m self).
Proof.
  intros Hkeep Hnone Hfuel.
  destruct (read_loop_bounded
              (bool_decide (effective_mode P self = Some "single_packet"%string))
              rp_max fuel 0 self) as (m & res & Hm & Hrun).
  { by rewrite Z.sub_0_r. }
  exists m. split; [lia |]. unfold read_chunk. rewrite Hrun.
  assert (rb_lib (after_calls read_packet m self) = None) as ->; [| done].
  clear Hrun Hm. induction m as [| m IH]; [done |].
  unfold after_calls in *. cbn. by rewrite Hkeep.
Qed.

End LoopMore.

Lemma read_chunk_bounded_witness :
  (Z.to_nat 3 < 5)%nat /\
  exists m : nat,
    (1 <= m <= Z.to_nat 3 + 1)%nat /\
    final_state (read_chunk (tape_reader 100) 5 None 3 engine0)
    = Some (after_calls (tape_reader 100) m engine0).
Proof.
  assert (Z.to_nat 3 < 5)%nat as H by lia.
  split; [exact H |]. exact (read_chunk_bounded (tape_reader 100) None 3 engine0 5 H).
Defined.

Lemma read_chunk_cap_witness :
  0 <= 3 /\ (Z.to_nat 3 < 5)%nat /\
  final_state (read_chunk (tape_reader 100) 5 None 3 engine0)
  = Some (after_calls (tape_reader 100) (Z.to_nat 3 + 1) engine0).
Proof.
  assert (0 <= 3) as H1 by lia.
  assert (Z.to_nat 3 < 5)%nat as H2 by lia.
  split; [exact H1 |]. split; [exact H2 |].
  apply (read_chunk_cap (tape_reader 100) None 3 engine0 5 H1 H2).
  intros k Hk.
  assert (k = 1 \/ k = 2 \/ k = 3)%nat as [-> | [-> | ->]] by lia; reflexivity.
Defined.

Lemma read_chunk_one_call_witness :
  final_state (read_chunk filling_reader 5 None 10 engine0)
  = Some (snd (filling_reader engine0)) /\
  final_state (read_chunk (tape_reader 100) 1 None 10 engine0) = None.
Proof.
  split.
  - apply (proj1 (read_chunk_one_call filling_reader None 10 engine0));
      [left; reflexivity | lia].
  - apply (proj2 (read_chunk_one_call (tape_reader 100) None 10 engine0));
      [reflexivity | lia].
Defined.

Lemma read_chunk_without_library_witness :
  rb_lib (new_streamer 0%nat) = None /\
  (Z.to_nat 3 < 5)%nat /\
  exists m : nat,
    (1 <= m)%nat /\
    read_chunk filling_reader 5 None 3 (new_streamer 0%nat)
    = Raised AttributeError (after_calls filling_reader m (new_streamer 0%nat)).
Proof.
  assert (Z.to_nat 3 < 5)%nat as H by lia.
  split; [reflexivity |]. split; [exact H |].
  exact (read_chunk_without_library filling_reader None 3 (new_streamer 0%nat) 5
           (fun s => eq_refl) eq_refl H).
Defined.

(** ** Further properties of [open_stream] *)

Section OpenMore.
Context {Src : Type}.
Variable get_decoder_list : DataStreamer Src -> list Decoder.
Variable make_lgdos : Decoder -> Z -> list RawBuffer -> list RawBuffer.
Implicit Types (self : DataStreamer Src) (lib : gmap string (list RawBuffer))
               (decoders : list Decoder).

(** When the body for one decoder goes on to [make_lgdos], the decoder's
    name is a key of the library: it was one, or it has just been
    inserted. *)
Lemma wildcard_setup_Some lib (decoder : Decoder) lib1 :
  wildcard_setup lib decoder = inr (Some lib1) ->
  (is_Some (lib !! class_name decoder) /\ lib1 = lib) \/
  (lib !! class_name decoder = None /\
   exists rb, lib1 = <[class_name decoder := [rb]]> lib).
Proof.
  unfold wildcard_setup.
  destruct (lib !! class_name decoder) as [rbs |] eqn:Hd.
  - intros [= <-]. left. eauto.
  - destruct (lib !! "*"%string) as [wildcard |]; [| done].
    destruct (wildcard !! 0%nat) as [template |]; [| done].
    destruct (out_name template); [| done].
    intros [= <-]. right. eauto.
Qed.

(** The loop over the decoders never removes a key of the library, and
    every key it adds is the class name of one of the decoders. *)
Lemma setup_buffers_dom (buffer_size : Z) decoders :
  forall lib (dec_names : list string) failure lib' dec_names',
    setup_buffers make_lgdos buffer_size decoders lib dec_names
    = (failure, lib', dec_names') ->
    dom lib ⊆ dom lib' /\
    (forall k, k ∈ dom lib' ->
       k ∈ dom lib \/ exists d, d ∈ decoders /\ class_name d = k).
Proof.
  induction decoders as [| decoder decoders IH];
    intros lib dec_names failure lib' dec_names' Hrun; cbn in Hrun.
  - injection Hrun as <- <- <-. split; [done | by left].
  - destruct (wildcard_setup lib decoder) as [e | [lib1 |]] eqn:Hw.
    + injection Hrun as <- <- <-. split; [done | by left].
    + assert (dom lib ⊆ dom lib1 /\ dom lib1 ⊆ {[class_name decoder]} ∪ dom lib)
        as [Hsub1 Hsub2].
      { destruct (wildcard_setup_Some _ _ _ Hw) as [[_ ->] | [_ [rb ->]]].
        - set_solver.
        - rewrite dom_insert_L. set_solver. }
      destruct (lib1 !! class_name decoder) as [rbs |].
      * destruct (IH _ _ _ _ _ Hrun) as [Hsub Hnew].
        rewrite dom_insert_L in Hsub, Hnew. split; [set_solver |].
        intros k Hk. destruct (Hnew k Hk) as [Hin | (d & Hd & Hname)].
        -- apply elem_of_union in Hin as [Hin | Hin].
           ++ apply elem_of_singleton in Hin as ->. right.
              exists decoder. split; [apply elem_of_cons; by left | done].
           ++ apply Hsub2, elem_of_union in Hin as [Hin | Hin]; [| by left].
              apply elem_of_singleton in Hin as ->. right.
              exists decoder. split; [apply elem_of_cons; by left | done].
        -- right. exists d. split; [apply elem_of_cons; by right | done].
      * injection Hrun as <- <- <-. split; [done |].
        intros k Hk. apply Hsub2, elem_of_union in Hk as [Hk | Hk]; [| by left].
        apply elem_of_singleton in Hk as ->. right.
        exists decoder. split; [apply elem_of_cons; by left | done].
    + destruct (IH _ _ _ _ _ Hrun) as [Hsub Hnew]. split; [done |].
      intros k Hk. destruct (Hnew k Hk) as [Hin | (d & Hd & Hname)]; [by left |].
      right. exists d. split; [apply elem_of_cons; by right | done].
Qed.

(** Without a wildcard entry the loop ends without an exception and
    leaves the keys of the library as they were; entries under other
    names than the decoders' are untouched. *)
Lemma setup_buffers_no_wildcard (buffer_size : Z) decoders :
  forall lib (dec_names : list string),
    lib !! "*"%string = None ->
    exists lib' dec_names',
      setup_buffers make_lgdos buffer_size decoders lib dec_names
      = (None, lib', dec_names') /\
      dom lib' = dom lib /\
      (forall k, (forall d, d ∈ decoders -> class_name d <> k) ->
         lib' !! k = lib !! k).
Proof.
  induction decoders as [| decoder decoders IH]; intros lib dec_names Hstar.
  - by exists lib, dec_names.
  - cbn. unfold wildcard_setup.
    destruct (lib !! class_name decoder) as [rbs |] eqn:Hd.
    + rewrite Hd.
      assert (class_name decoder <> "*"%string) as Hne by congruence.
      destruct (IH (<[class_name decoder := make_lgdos decoder buffer_size rbs]> lib)
                   (dec_names ++ [class_name decoder])) as (lib' & names' & Hrun & Hdom & Hkeep).
      { by rewrite lookup_insert_ne. }
      exists lib', names'. split; [done |]. split.
      * rewrite Hdom, dom_insert_L.
        assert (class_name decoder ∈ dom lib) by (apply elem_of_dom; eauto).
        set_solver.
      * intros k Hk. rewrite Hkeep.
        -- apply lookup_insert_ne. apply Hk, elem_of_cons. by left.
        -- intros d Hin. apply Hk, elem_of_cons. by right.
    + rewrite Hstar.
      destruct (IH lib dec_names Hstar) as (lib' & names' & Hrun & Hdom & Hkeep).
      exists lib', names'. split; [done |]. split; [done |].
      intros k Hk. apply Hkeep. intros d Hin. apply Hk, elem_of_cons. by right.
Qed.

(** [open_stream] always comes to an end, and whether it returns or
    raises it has stored the chunk mode and left [n_bytes_read], the
    [any_full] flag and the source as they were. Given a library, it hands
    the engine a library that has every key of the one given; the keys
    added are class names of decoders. *)
Theorem open_stream_frame (stream_name : string)
    (rb_lib_given : option (gmap string (list RawBuffer))) (buffer_size : Z)
    (chunk_mode_given out_stream_given : string) self :
  exists final,
    final_state (open_stream get_decoder_list make_lgdos stream_name rb_lib_given
                   buffer_size chunk_mode_given out_stream_given self)
    = Some final /\
    chunk_mode final = Some chunk_mode_given /\
    n_bytes_read final = n_bytes_read self /\
    any_full final = any_full self /\
    source final = source self /\
    (forall lib, rb_lib_given = Some lib ->
       exists lib',
         rb_lib final = Some lib' /\
         dom lib ⊆ dom lib' /\
         (forall k, k ∈ dom lib' ->
            k ∈ dom lib \/
            exists d,
              d ∈ get_decoder_list
                    (set_rb_lib (Some lib)
                       (set_chunk_mode (Some chunk_mode_given) self)) /\
              class_name d = k)).
Proof.
  unfold open_stream. destruct rb_lib_given as [lib |].
  - destruct (setup_buffers make_lgdos buffer_size
                (get_decoder_list
                   (set_rb_lib (Some lib) (set_chunk_mode (Some chunk_mode_given) self)))
                lib []) as [[failure lib'] names'] eqn:Hrun.
    destruct (setup_buffers_dom _ _ _ _ _ _ _ Hrun) as [Hsub Hnew].
    eexists. split; [by destruct failure |].
    repeat split; try done.
    intros lib0 [= <-]. by exists lib'.
  - destruct (build_default_rb_lib get_decoder_list
                (set_chunk_mode (Some chunk_mode_given) self) out_stream_given)
      as [lib |] eqn:Hbuild.
    + destruct (setup_buffers make_lgdos buffer_size
                  (get_decoder_list
                     (set_rb_lib (Some lib) (set_chunk_mode (Some chunk_mode_given) self)))
                  lib []) as [[failure lib'] names'] eqn:Hrun.
      eexists. split; [by destruct failure |]. by repeat split.
    + destruct (get_decoder_list _) as [| d ds];
        (eexists; split; [done |]; by repeat split).
Qed.

(** Given a library without a wildcard entry, [open_stream] returns;
    the library has the same keys afterwards, decoders absent from it are
    passed over, and entries that are not named after a decoder are
    untouched. *)
Theorem open_stream_without_wildcard (stream_name : string)
    (lib : gmap string (list RawBuffer)) (buffer_size : Z)
    (chunk_mode_given out_stream_given : string) self :
  lib !! "*"%string = None ->
  exists lib',
    open_stream get_decoder_list make_lgdos stream_name (Some lib)
                buffer_size chunk_mode_given out_stream_given self
    = Returned tt (set_rb_lib (Some lib') (set_chunk_mode (Some chunk_mode_given) self)) /\
    dom lib' = dom lib /\
    (forall k,
       (forall d,
          d ∈ get_decoder_list
                (set_rb_lib (Some lib) (set_chunk_mode (Some chunk_mode_given) self)) ->
          class_name d <> k) ->
       lib' !! k = lib !! k).
Proof.
  intros Hstar. unfold open_stream.
  destruct (setup_buffers_no_wildcard buffer_size
              (get_decoder_list
                 (set_rb_lib (Some lib) (set_chunk_mode (Some chunk_mode_given) self)))
              lib [] Hstar) as (lib' & names' & Hrun & Hdom & Hkeep).
  exists lib'. rewrite Hrun. by repeat split.
Qed.

End OpenMore.

Lemma open_stream_without_wildcard_witness :
  let lib : gmap string (list RawBuffer) :=
    {[ "ORSIS3302Decoder"%string := [mkRawBuffer None "out.lh5" (PyStr "sis") 0] ]} in
  lib !! "*"%string = None /\
  exists lib',
    open_stream (fun _ => [sis_decoder; mkDecoder "ORGretina4MDecoder" 1]) sized_lgdos
                "run0.orca" (Some lib) 8192 "any_full" "" (new_streamer 0%nat)
    = Returned tt (set_rb_lib (Some lib')
                     (set_chunk_mode (Some "any_full"%string) (new_streamer 0%nat))) /\
    dom lib' = dom lib.
Proof.
  intros lib.
  assert (lib !! "*"%string = None) as H by reflexivity.
  split; [exact H |].
  destruct (open_stream_without_wildcard
              (fun _ => [sis_decoder; mkDecoder "ORGretina4MDecoder" 1]) sized_lgdos
              "run0.orca" lib 8192 "any_full" "" (new_streamer 0%nat) H)
    as (lib' & Hrun & Hdom & _).
  exists lib'. split; [exact Hrun | exact Hdom].
Defined.

Lemma open_stream_frame_witness :
  exists final,
    final_state (open_stream (fun _ => [sis_decoder]) sized_lgdos "run0.orca"
                   (Some wildcard_lib) 8192 "any_full" "" (new_streamer 0%nat))
    = Some final /\
    chunk_mode final = Some "any_full"%string /\
    exists lib', rb_lib final = Some lib' /\ dom wildcard_lib ⊆ dom lib'.
Proof.
  destruct (open_stream_frame (fun _ => [sis_decoder]) sized_lgdos "run0.orca"
              (Some wildcard_lib) 8192 "any_full" "" (new_streamer 0%nat))
    as (final & Hfin & Hmode & _ & _ & _ & Hlib).
  exists final. split; [exact Hfin |]. split; [exact Hmode |].
  destruct (Hlib wildcard_lib eq_refl) as (lib' & Hrb & Hsub & _).
  exists lib'. split; [exact Hrb | exact Hsub].
Defined.

(** ** The methods with their lines as they stand *)

Section Written.
Context {Src : Type}.
Variable read_packet : DataStreamer Src -> bool * DataStreamer Src.
Variable get_decoder_list : DataStreamer Src -> list Decoder.
Variable make_lgdos : Decoder -> Z -> list RawBuffer -> list RawBuffer.
Variable str_format : string -> string -> exn + string.
Implicit Types (self : DataStreamer Src) (lib : gmap string (list RawBuffer))
               (decoders : list Decoder).


(** A decoder absent from a library that has a wildcard entry: the body
    raises, whatever [format] does. *)
Lemma wildcard_setup_written_fails lib (decoder : Decoder) wildcard :
  lib !! class_name decoder = None ->
  lib !! "*"%string = Some wildcard ->
  exists e, wildcard_setup_written str_format lib decoder = inl e.
Proof.
  intros Hd Hw. unfold wildcard_setup_written. rewrite Hd, Hw.
  destruct (wildcard !! 0%nat) as [template |]; [| by eexists].
  destruct (out_name template) as [name_template | d]; [| by eexists].
  destruct (str_format name_template (class_name decoder)); [by eexists |].
  destruct (str_format (out_stream template) (class_name decoder)); by eexists.
Qed.

(** The loop over the decoders as it stands adds no key to the library,
    and it ends in an exception exactly when the library has a wildcard
    entry and one of the decoders is absent from it. *)
Lemma setup_buffers_written_spec (buffer_size : Z) decoders :
  forall lib (dec_names : list string),
  exists failure lib' dec_names',
    setup_buffers_written make_lgdos str_format buffer_size decoders lib dec_names
    = (failure, lib', dec_names') /\
    dom lib' = dom lib /\
    (is_Some failure <->
     is_Some (lib !! "*"%string) /\
     exists d, d ∈ decoders /\ lib !! class_name d = None).
Proof.
  induction decoders as [| decoder decoders IH]; intros lib dec_names.
  - exists None, lib, dec_names. split; [done |]. split; [done |].
    split; [by intros [? ?] |]. intros [_ (d & Hd & _)]. by apply elem_of_nil in Hd.
  - cbn [setup_buffers_written].
    destruct (lib !! class_name decoder) as [rbs |] eqn:Hd.
    + assert (wildcard_setup_written str_format lib decoder = inr (Some lib)) as ->
        by (unfold wildcard_setup_written; by rewrite Hd).
      rewrite Hd.
      set (lib2 := <[class_name decoder := make_lgdos decoder buffer_size rbs]> lib).
      assert (dom lib2 = dom lib) as Hdom2
        by (apply dom_insert_lookup_L; eauto).
      assert (forall k, is_Some (lib2 !! k) <-> is_Some (lib !! k)) as Hsome
        by (intros k; by rewrite <- !elem_of_dom, Hdom2).
      assert (forall k, lib2 !! k = None <-> lib !! k = None) as Hnone
        by (intros k; by rewrite <- !not_elem_of_dom, Hdom2).
      destruct (IH lib2 (dec_names ++ [class_name decoder]))
        as (failure & lib' & names' & Hrun & Hdom & Hfail).
      exists failure, lib', names'. split; [done |].
      split; [by rewrite Hdom |].
      rewrite Hfail, Hsome. split.
      * intros [Hstar (d & Hin & Hnot)]. split; [done |].
        exists d. split; [apply elem_of_cons; by right | by apply Hnone].
      * intros [Hstar (d & Hin & Hnot)]. split; [done |].
        apply elem_of_cons in Hin as [-> | Hin]; [congruence |].
        exists d. split; [done | by apply Hnone].
    + destruct (lib !! "*"%string) as [wildcard |] eqn:Hw.
      * destruct (wildcard_setup_written_fails lib decoder wildcard Hd Hw) as [e ->].
        exists (Some e), lib, dec_names. split; [done |]. split; [done |].
        split; [| by eauto]. intros _. split; [by eauto |].
        exists decoder. split; [apply elem_of_cons; by left | done].
      * assert (wildcard_setup_written str_format lib decoder = inr None) as ->
          by (unfold wildcard_setup_written; by rewrite Hd, Hw).
        destruct (IH lib dec_names) as (failure & lib' & names' & Hrun & Hdom & Hfail).
        exists failure, lib', names'. split; [done |]. split; [done |].
        rewrite Hfail, Hw. split; intros [[? ?] _]; done.
Qed.

(** As the file stands, [open_stream] with a library never adds an
    entry to it, and it raises exactly when the library has a ['*'] entry
    and some decoder of the stream is absent from the library: the
    wildcard branch cannot get past [RawBuffer(...)]. Otherwise it
    returns. *)
Theorem open_stream_written_entries (stream_name : string)
    (lib : gmap string (list RawBuffer)) (buffer_size : Z)
    (chunk_mode_given out_stream_given : string) self :
  exists lib',
    final_state (open_stream_written get_decoder_list make_lgdos str_format
                   stream_name (Some lib) buffer_size chunk_mode_given
                   out_stream_given self)
    = Some (set_rb_lib (Some lib') (set_chunk_mode (Some chunk_mode_given) self)) /\
    dom lib' = dom lib /\
    ((exists e final,
        open_stream_written get_decoder_list make_lgdos str_format
          stream_name (Some lib) buffer_size chunk_mode_given out_stream_given self
        = Raised e final)
     <-> is_Some (lib !! "*"%string) /\
         exists d,
           d ∈ get_decoder_list
                 (set_rb_lib (Some lib) (set_chunk_mode (Some chunk_mode_given) self)) /\
           lib !! class_name d = None).
Proof.
  unfold open_stream_written.
  destruct (setup_buffers_written_spec buffer_size
              (get_decoder_list
                 (set_rb_lib (Some lib) (set_chunk_mode (Some chunk_mode_given) self)))
              lib []) as (failure & lib' & names' & Hrun & Hdom & Hfail).
  exists lib'. rewrite Hrun. split; [by destruct failure |]. split; [done |].
  rewrite <- Hfail. destruct failure as [e |].
  - split; [by eauto |]. intros _. by eauto.
  - split; [by intros (? & ? & ?) | by intros [? ?]].
Qed.


End Written.


Lemma open_stream_written_entries_witness :
  exists lib',
    final_state (open_stream_written (fun _ => [sis_decoder]) sized_lgdos
                   (fun template value => inr (format template value))
                   "run0.orca" (Some wildcard_lib) 8192 "any_full" ""
                   (new_streamer 0%nat))
    = Some (set_rb_lib (Some lib')
              (set_chunk_mode (Some "any_full"%string) (new_streamer 0%nat))) /\
    dom lib' = dom wildcard_lib.
Proof.
  destruct (open_stream_written_entries (fun _ => [sis_decoder]) sized_lgdos
              (fun template value => inr (format template value))
              "run0.orca" wildcard_lib 8192 "any_full" "" (new_streamer 0%nat))
    as (lib' & Hfin & Hdom & _).
  exists lib'. split; [exact Hfin | exact Hdom].
Defined.

End StreamerProps.
